(** * Authentication controller (src/controllers/authController.ts)

    A shallow embedding of the Express handlers of the authentication
    controller: registration, per-role login, unified login, current-user
    lookup, password change and the password-reset flow.

    The credential store is three tables of account rows.  A handler is a
    computation in a small state-and-exception monad over the store and a
    trace of the effects it performed; the [try { ... } catch (error)
    { next(error) }] wrapper of every handler turns a thrown error into the
    outcome [Next error].

    bcrypt is kept abstract (section variables); the values a request draws
    from its surroundings (salt, random bytes, clock, mailer verdicts) are
    gathered in [Env]. *)

From Stdlib Require Import ZArith List String Ascii Bool Lia.
From Stdlib Require Import Strings.Byte.
Import ListNotations.

Local Open Scope string_scope.
Local Open Scope Z_scope.

(** ** Data model *)

(** The three account partitions ([db.JobSeeker], [db.Employer], [db.Admin]). *)
Inductive Partition : Type :=
| JobSeeker
| Employer
| Admin.

(** One row of an account table.  Times are milliseconds since the epoch.
    [deleted] is read by the handlers as a truthy test; an Admin row carries
    no soft-delete flag and the handlers never read it there.  [role] is the
    finer-grained label of an Admin row.  [other] holds the variant-specific
    columns ([name], [clinic_name], the rest of the request body), carried
    opaquely. *)
Record Account : Type := mkAccount {
  id : Z;
  email : string;
  password : string;
  deleted : bool;
  reset_token : option string;
  token_expiry : option Z;
  role : option string;
  modified : option Z;
  other : list (string * string)
}.

(** A model instance as a query hands it to the handler, and the JSON object
    made from it: the attributes of a row, the password possibly left out. *)
Record Profile : Type := mkProfile {
  p_id : Z;
  p_email : string;
  p_password : option string;
  p_deleted : bool;
  p_reset_token : option string;
  p_token_expiry : option Z;
  p_role : option string;
  p_modified : option Z;
  p_other : list (string * string)
}.

(** The error classes of [utils/errorTypes], and any other exception a
    collaborator may raise (for instance nodemailer). *)
Inductive Error : Type :=
| NotFoundError (message : string)
| BadRequestError (message : string)
| ForbiddenError (message : string)
| UnauthorizedError (message : string)
| OtherError (message : string).

(** The claim set signed by [jwt.sign]; the signature itself is not modelled,
    a token is identified with what it carries. *)
Record Token : Type := mkToken {
  tk_id : Z;
  tk_email : string;
  tk_role : string;
  tk_expiresIn : string
}.

(** The JSON bodies the handlers send. *)
Inductive Body : Type :=
| RegisteredBody (user : Profile) (token : Token)
    (* { success: true, data: { user, token } } *)
| LoginBody (role : option string) (user : Profile) (token : Token)
    (* { success: true, data: { role, user, token } } *)
| UserBody (user : Profile)
    (* { success: true, data: user } *)
| MessageBody (success : bool) (message : string).
    (* { success, message } *)

Record Response : Type := mkResponse {
  status : Z;
  body : Body
}.

(** What a handler does with a request: it answers, or it hands an error to
    the error middleware through [next]. *)
Inductive Outcome : Type :=
| Sent (r : Response)
| Next (e : Error).

(** The credential store. *)
Record Store : Type := mkStore {
  jobSeekers : list Account;
  employers : list Account;
  admins : list Account
}.

(** Effects a handler performs, in the order it performs them. *)
Inductive Event : Type :=
| QFindOne (p : Partition)
| QFindByPk (p : Partition) (pk : Z)
| QInsert (p : Partition) (row : Account)
| QUpdate (p : Partition) (pk : Z)
| SendMail (to : string) (link : string)
| ConsoleError
| ConsoleLog.

Record World : Type := mkWorld {
  store : Store;
  trace : list Event
}.

(** What one request reads from its surroundings. *)
Record Env : Type := mkEnv {
  genSalt : string;              (* bcrypt.genSalt(10) *)
  entropy : nat -> byte;         (* the i-th byte crypto.randomBytes draws *)
  now : Z;                       (* Date.now(), new Date() *)
  smtp_verify : bool;            (* transporter.verify: connection works *)
  smtp_send : option Error       (* transporter.sendMail: None when it resolves *)
}.

(** ** The handler monad: state that survives an exception *)

Definition M (A : Type) : Type := World -> (Error + A) * World.

Definition ret {A : Type} (a : A) : M A := fun w => (inr a, w).

Definition throw {A : Type} (e : Error) : M A := fun w => (inl e, w).

Definition bind {A B : Type} (m : M A) (k : A -> M B) : M B :=
  fun w =>
    match m w with
    | (inl e, w') => (inl e, w')
    | (inr a, w') => k a w'
    end.

Declare Scope handler_scope.
Delimit Scope handler_scope with handler.
Notation "x <- m ;; k" := (bind m (fun x => k))
  (at level 100, m at next level, right associativity) : handler_scope.
Notation "m ;;; k" := (bind m (fun _ => k))
  (at level 100, right associativity) : handler_scope.
Local Open Scope handler_scope.

(** [try { body } catch (error) { next(error) }] *)
Definition handle (m : M Response) (w : World) : Outcome * World :=
  match m w with
  | (inl e, w') => (Next e, w')
  | (inr r, w') => (Sent r, w')
  end.

Definition emit (ev : Event) : M unit :=
  fun w => (inr tt, mkWorld (store w) (trace w ++ [ev])).

(** ** Store operations (the Sequelize calls the controller makes) *)

Definition table (p : Partition) (s : Store) : list Account :=
  match p with
  | JobSeeker => jobSeekers s
  | Employer => employers s
  | Admin => admins s
  end.

Definition set_table (p : Partition) (t : list Account) (s : Store) : Store :=
  match p with
  | JobSeeker => mkStore t (employers s) (admins s)
  | Employer => mkStore (jobSeekers s) t (admins s)
  | Admin => mkStore (jobSeekers s) (employers s) t
  end.

(** [Model.findOne({ where: { email } })]: the first row with that email. *)
Definition findOne_email (p : Partition) (e : string) : M (option Account) :=
  fun w =>
    (inr (find (fun r => String.eqb (email r) e) (table p (store w))),
     mkWorld (store w) (trace w ++ [QFindOne p])).

(** [Model.findByPk(id)] *)
Definition findByPk (p : Partition) (pk : Z) : M (option Account) :=
  fun w =>
    (inr (find (fun r => Z.eqb (id r) pk) (table p (store w))),
     mkWorld (store w) (trace w ++ [QFindByPk p pk])).

(** The condition of [resetPassword]'s query:
    [reset_token = token AND token_expiry > new Date()].  A null column
    satisfies neither comparison. *)
Definition reset_matches (token : string) (t : Z) (r : Account) : bool :=
  match reset_token r, token_expiry r with
  | Some k, Some x => String.eqb k token && (t <? x)
  | _, _ => false
  end.

Definition findOne_reset (p : Partition) (token : string) (t : Z)
  : M (option Account) :=
  fun w =>
    (inr (find (reset_matches token t) (table p (store w))),
     mkWorld (store w) (trace w ++ [QFindOne p])).

(** [instance.save()] after assignments to some attributes: one UPDATE that
    sets the changed columns on the row with the instance's primary key. *)
Definition update_row (pk : Z) (f : Account -> Account) (t : list Account)
  : list Account :=
  map (fun r => if Z.eqb (id r) pk then f r else r) t.

Definition save (p : Partition) (pk : Z) (f : Account -> Account) : M unit :=
  fun w =>
    (inr tt,
     mkWorld (set_table p (update_row pk f (table p (store w))) (store w))
             (trace w ++ [QUpdate p pk])).

(** The key an auto-increment primary key takes next. *)
Definition next_id (t : list Account) : Z :=
  1 + fold_right (fun r m => Z.max (id r) m) 0 t.

(** [Model.create({...})]: appends the new row and returns it.  The values
    given for the columns [deleted], [reset_token] and [token_expiry] are
    stored as given ([del], [tok], [exp]).
    Modelled from the spec: the model definitions (models/) are not part of
    the sources; the key of the new row is drawn by the store
    (auto-increment), and a column the values leave out takes its default:
    not soft-deleted, no reset token pending ("populated only during an
    active password-reset window"). *)
Definition create (p : Partition) (e h : string) (del : option bool)
           (tok : option string) (exp : option Z)
           (data : list (string * string))
  : M Account :=
  fun w =>
    let row := mkAccount (next_id (table p (store w))) e h
                         (match del with Some b => b | None => false end)
                         tok exp None None data in
    (inr row,
     mkWorld (set_table p (table p (store w) ++ [row]) (store w))
             (trace w ++ [QInsert p row])).

(** All attributes of a row. *)
Definition instance_of (r : Account) : Profile :=
  mkProfile (id r) (email r) (Some (password r)) (deleted r) (reset_token r)
            (token_expiry r) (role r) (modified r) (other r).

(** [attributes: { exclude: ['password'] }] *)
Definition exclude_password (r : Account) : Profile :=
  mkProfile (id r) (email r) None (deleted r) (reset_token r)
            (token_expiry r) (role r) (modified r) (other r).

(** Modelled from the spec: [toJSON] of the account models (models/ is not
    part of the sources).  The spec says of the object the controller gets
    from [toJSON()] that it is "the created profile (password excluded)":
    every attribute but the password. *)
Definition toJSON (i : Profile) : Profile :=
  mkProfile (p_id i) (p_email i) None (p_deleted i) (p_reset_token i)
            (p_token_expiry i) (p_role i) (p_modified i) (p_other i).

(** ** Strings: [toLowerCase], hexadecimal encoding, [||] *)

Definition lower_ascii (c : ascii) : ascii :=
  let n := N_of_ascii c in
  if ((65 <=? n) && (n <=? 90))%N then ascii_of_N (n + 32) else c.

(** The letters A to Z of a string turned into a to z. *)
Fixpoint lower_ascii_letters (s : string) : string :=
  match s with
  | EmptyString => EmptyString
  | String c s' => String (lower_ascii c) (lower_ascii_letters s')
  end.

(** A string (read as UTF-8) of ASCII characters only. *)
Fixpoint is_ascii_string (s : string) : bool :=
  match s with
  | EmptyString => true
  | String c s' => (N_of_ascii c <? 128)%N && is_ascii_string s'
  end.

(** [a || d] on a string attribute: null, undefined and the empty string are
    falsy. *)
Definition or_default (a : option string) (d : string) : string :=
  match a with
  | None => d
  | Some EmptyString => d
  | Some s => s
  end.

Definition hex_digit (n : N) : ascii :=
  match n with
  | 0%N => "0" | 1%N => "1" | 2%N => "2" | 3%N => "3"
  | 4%N => "4" | 5%N => "5" | 6%N => "6" | 7%N => "7"
  | 8%N => "8" | 9%N => "9" | 10%N => "a" | 11%N => "b"
  | 12%N => "c" | 13%N => "d" | 14%N => "e" | _ => "f"
  end%char.

Definition is_hex_digit (c : ascii) : bool :=
  let n := N_of_ascii c in
  (((48 <=? n) && (n <=? 57)) || ((97 <=? n) && (n <=? 102)))%N.

Definition hex_value (c : ascii) : option N :=
  let n := N_of_ascii c in
  if ((48 <=? n) && (n <=? 57))%N then Some (n - 48)%N
  else if ((97 <=? n) && (n <=? 102))%N then Some (n - 87)%N
  else None.

(** [Buffer.prototype.toString("hex")]: two lower-case digits per byte. *)
Fixpoint toHex (l : list byte) : string :=
  match l with
  | [] => EmptyString
  | b :: l' =>
      let n := Byte.to_N b in
      String (hex_digit (n / 16)) (String (hex_digit (n mod 16)) (toHex l'))
  end.

(** The decoder of the encoding above, used to state that no bit is lost. *)
Fixpoint fromHex (s : string) : option (list byte) :=
  match s with
  | EmptyString => Some []
  | String hi (String lo s') =>
      match hex_value hi, hex_value lo, fromHex s' with
      | Some h, Some l, Some bs =>
          match Byte.of_N (h * 16 + l) with
          | Some b => Some (b :: bs)
          | None => None
          end
      | _, _, _ => None
      end
  | String _ EmptyString => None
  end.

Fixpoint all_chars (f : ascii -> bool) (s : string) : bool :=
  match s with
  | EmptyString => true
  | String c s' => f c && all_chars f s'
  end.

(** [crypto.randomBytes(n)] *)
Definition randomBytes (env : Env) (n : nat) : list byte :=
  map (entropy env) (seq 0 n).

(** ** Requests *)

(** Body of a registration: [{ name, email, password, ...otherData }]
    ([clinic_name] takes the place of [name] for an employer).  Of the keys
    that make up [otherData], [deleted], [reset_token] and [token_expiry]
    name columns the handlers test and are kept apart, [None] when the body
    has no such key; [rg_otherData] is the rest, without a key [id] (the key
    of a row is left to the store). *)
Record RegisterBody : Type := mkRegisterBody {
  rg_name : string;
  rg_email : string;
  rg_password : string;
  rg_deleted : option bool;
  rg_reset_token : option string;
  rg_token_expiry : option Z;
  rg_otherData : list (string * string)
}.

(** Body of a login: [{ email, password }]. *)
Record LoginReq : Type := mkLoginReq {
  lg_email : string;
  lg_password : string
}.

(** [req.user], the identity the authentication middleware decoded from the
    bearer token: [{ id, role }]. *)
Record Identity : Type := mkIdentity {
  user_id : Z;
  user_role : string
}.

(** Body of a password change: [{ currentPassword, newPassword }]. *)
Record ChangeBody : Type := mkChangeBody {
  currentPassword : string;
  newPassword : string
}.

(** Body of a reset request: [{ email, role }]. *)
Record ResetRequestBody : Type := mkResetRequestBody {
  rr_email : string;
  rr_role : string
}.

(** Body of a reset: [{ token, role, newPassword }]. *)
Record ResetBody : Type := mkResetBody {
  rs_token : string;
  rs_role : string;
  rs_newPassword : string
}.

(** What the middleware reads back from a token the controller issued. *)
Definition identity_of (t : Token) : Identity :=
  mkIdentity (tk_id t) (tk_role t).

(** Assignments to attributes of a loaded instance. *)
Definition set_password (h : string) (r : Account) : Account :=
  mkAccount (id r) (email r) h (deleted r) (reset_token r) (token_expiry r)
            (role r) (modified r) (other r).

Definition set_modified (t : option Z) (r : Account) : Account :=
  mkAccount (id r) (email r) (password r) (deleted r) (reset_token r)
            (token_expiry r) (role r) t (other r).

Definition set_reset_token (k : option string) (r : Account) : Account :=
  mkAccount (id r) (email r) (password r) (deleted r) k (token_expiry r)
            (role r) (modified r) (other r).

Definition set_token_expiry (x : option Z) (r : Account) : Account :=
  mkAccount (id r) (email r) (password r) (deleted r) (reset_token r) x
            (role r) (modified r) (other r).

Definition is_some {A : Type} (o : option A) : bool :=
  match o with
  | Some _ => true
  | None => false
  end.

(** The HTTP status of an answer, if the handler answered. *)
Definition status_of (o : Outcome) : option Z :=
  match o with
  | Sent r => Some (status r)
  | Next _ => None
  end.

(** ** Sample data for the worked instances *)

(** A stand-in for bcrypt: the "hash" is the salt and the data between
    markers, and comparison re-reads the data after the last marker. *)
Definition toy_hash (data salt : string) : string :=
  ("$" ++ salt ++ "$" ++ data)%string.

Fixpoint after_last_marker (acc s : string) : string :=
  match s with
  | EmptyString => acc
  | String c s' =>
      if Ascii.eqb c "$" then after_last_marker s' s'
      else after_last_marker acc s'
  end.

Definition toy_compare (data hash : string) : bool :=
  String.eqb (after_last_marker hash hash) data.

Definition sample_env : Env :=
  mkEnv "s4lt" (fun i => match Byte.of_N (N.of_nat i * 7 + 10) with
                         | Some b => b
                         | None => x00
                         end)
        1000 true None.

(** The same surroundings with a mailer that refuses the message. *)
Definition failing_mail_env : Env :=
  mkEnv "s4lt" (entropy sample_env) 1000 false
        (Some (OtherError "connect ECONNREFUSED")).

Definition alice : Account :=
  mkAccount 1 "alice@x.com" (toy_hash "pw1" "aa") false None None None None
            [("name", "Alice")].

(** A soft-deleted job seeker. *)
Definition bob : Account :=
  mkAccount 2 "bob@x.com" (toy_hash "pw2" "bb") true None None None None
            [("name", "Bob")].

(** A job seeker with a reset pending until time 5000. *)
Definition carol : Account :=
  mkAccount 3 "carol@x.com" (toy_hash "pw3" "cc") false (Some "c0ffee")
            (Some 5000) None None [("name", "Carol")].

Definition clinic : Account :=
  mkAccount 1 "clinic@x.com" (toy_hash "pw4" "dd") false None None None None
            [("clinic_name", "Clinic")].

Definition root : Account :=
  mkAccount 1 "root@x.com" (toy_hash "pw5" "ee") false None None
            (Some "SuperAdmin") None [].

(** Surroundings of a later request: other random bytes, 15 minutes and one
    second after [sample_env]. *)
Definition later_env : Env :=
  mkEnv "s5lt" (fun _ => x2a) 901000 true None.

Definition sample_store : Store :=
  mkStore [alice; bob; carol] [clinic] [root].

(** Two Admin accounts without a role label: none stored, and an empty one. *)
Definition ops : Account :=
  mkAccount 1 "ops@x.com" (toy_hash "pw6" "ff") false None None None None [].

Definition aux : Account :=
  mkAccount 2 "aux@x.com" (toy_hash "pw7" "gg") false None None (Some "")
            None [].

Definition staff_world : World := mkWorld (mkStore [] [] [ops; aux]) [].


(** A stand-in for the runtime's lower-casing outside ASCII. *)
Definition toy_unicode_lower (s : string) : string := s.


(** A registration body that names the soft-delete flag. *)
Definition body_deleted : RegisterBody :=
  mkRegisterBody "Eve" "eve@x.com" "pw8" (Some true) None None [].

Definition sample_world : World := mkWorld sample_store [].

(** ** The handlers *)

Section Controller.

(** [bcrypt.hash(data, salt)] and [bcrypt.compare(data, hash)]. *)
Variable bcrypt_hash : string -> string -> string.
Variable bcrypt_compare : string -> string -> bool.

(** [process.env.JWT_EXPIRATION] *)
Variable JWT_EXPIRATION : option string.

(** What [String.prototype.toLowerCase] of the runtime returns on a string
    that has characters outside ASCII (Unicode case mapping). *)
Variable unicode_toLowerCase : string -> string.

(** [String.prototype.toLowerCase].  On an ASCII string it turns the letters
    A to Z into a to z.  On any other string the result is the runtime's.
    A lower-cased string has no letter A to Z, so turning these into a to z
    once more leaves the runtime's result as it is; written out here, it
    makes that fact available whatever the parameter. *)
Definition toLowerCase (s : string) : string :=
  if is_ascii_string s then lower_ascii_letters s
  else lower_ascii_letters (unicode_toLowerCase s).

(** [jwt.sign({ id, email, role }, JWT_SECRET, { expiresIn })].  The
    deployment is taken to be one in which [jwt.sign] signs: [JWT_SECRET] is
    set and the lifetime is one the library accepts.  What a handler does
    when [jwt.sign] throws is not part of the model. *)
Definition generateToken (user : Account) (r : string) : Token :=
  mkToken (id user) (email user) r (or_default JWT_EXPIRATION "1d").

Definition registerJobSeeker (env : Env) (req : RegisterBody)
  : World -> Outcome * World :=
  handle (
    existingJobSeeker <- findOne_email JobSeeker (rg_email req) ;;
    existingEmployer <- findOne_email Employer (rg_email req) ;;
    existingAdmin <- findOne_email Admin (rg_email req) ;;
    if is_some existingJobSeeker || is_some existingEmployer
       || is_some existingAdmin
    then throw (BadRequestError "Email is already registered")
    else
      let salt := genSalt env in
      let hashedPassword := bcrypt_hash (rg_password req) salt in
      jobSeeker <- create JobSeeker (rg_email req) hashedPassword
                     (rg_deleted req) (rg_reset_token req)
                     (rg_token_expiry req)
                     (("name", rg_name req) :: rg_otherData req) ;;
      let token := generateToken jobSeeker "jobSeeker" in
      ret (mkResponse 201
             (RegisteredBody (toJSON (instance_of jobSeeker)) token))).

Definition registerEmployer (env : Env) (req : RegisterBody)
  : World -> Outcome * World :=
  handle (
    existingJobSeeker <- findOne_email JobSeeker (rg_email req) ;;
    existingEmployer <- findOne_email Employer (rg_email req) ;;
    existingAdmin <- findOne_email Admin (rg_email req) ;;
    if is_some existingJobSeeker || is_some existingEmployer
       || is_some existingAdmin
    then throw (BadRequestError "Email is already registered")
    else
      let salt := genSalt env in
      let hashedPassword := bcrypt_hash (rg_password req) salt in
      employer <- create Employer (rg_email req) hashedPassword
                    (rg_deleted req) (rg_reset_token req)
                    (rg_token_expiry req)
                    (("clinic_name", rg_name req) :: rg_otherData req) ;;
      let token := generateToken employer "employer" in
      ret (mkResponse 201
             (RegisteredBody (toJSON (instance_of employer)) token))).

Definition loginJobSeeker (req : LoginReq) : World -> Outcome * World :=
  handle (
    found <- findOne_email JobSeeker (lg_email req) ;;
    match found with
    | None => throw (UnauthorizedError "Invalid credentials")
    | Some jobSeeker =>
        if deleted jobSeeker
        then throw (UnauthorizedError "Account deactivated")
        else
          let isMatch := bcrypt_compare (lg_password req) (password jobSeeker) in
          if negb isMatch
          then throw (UnauthorizedError "Invalid credentials")
          else
            let token := generateToken jobSeeker "jobseeker" in
            ret (mkResponse 200
                   (LoginBody (Some "JobSeeker")
                              (toJSON (instance_of jobSeeker)) token))
    end).

Definition loginEmployer (req : LoginReq) : World -> Outcome * World :=
  handle (
    found <- findOne_email Employer (lg_email req) ;;
    match found with
    | None => throw (UnauthorizedError "Invalid credentials")
    | Some employer =>
        if deleted employer
        then throw (UnauthorizedError "Account deactivated")
        else
          let isMatch := bcrypt_compare (lg_password req) (password employer) in
          if negb isMatch
          then throw (UnauthorizedError "Invalid credentials")
          else
            let token := generateToken employer "employer" in
            ret (mkResponse 200
                   (LoginBody (Some "Employer")
                              (toJSON (instance_of employer)) token))
    end).

Definition loginAdmin (req : LoginReq) : World -> Outcome * World :=
  handle (
    found <- findOne_email Admin (lg_email req) ;;
    match found with
    | None => throw (UnauthorizedError "Invalid credentials")
    | Some admin =>
        let isMatch := bcrypt_compare (lg_password req) (password admin) in
        if negb isMatch
        then throw (UnauthorizedError "Invalid credentials")
        else
          let token := generateToken admin "admin" in
          ret (mkResponse 200
                 (LoginBody (p_role (toJSON (instance_of admin)))
                            (toJSON (instance_of admin)) token))
    end).

(** The source keeps two mutable locals, [user] and [role]; each of the three
    probes below is one of its [if] blocks, taking and returning the pair. *)
Definition unifiedLogin (req : LoginReq) : World -> Outcome * World :=
  handle (
    (* let user = null; let role = ''; then the JobSeeker probe *)
    st1 <- (user <- findOne_email JobSeeker (lg_email req) ;;
            match user with
            | Some u =>
                if deleted u
                then throw (UnauthorizedError "Account deactivated")
                else if negb (bcrypt_compare (lg_password req) (password u))
                then throw (UnauthorizedError "Invalid credentials")
                else ret (user, "JobSeeker")
            | None => ret (user, "")
            end) ;;
    (* if (!user): the Employer probe *)
    st2 <- (match fst st1 with
            | Some _ => ret st1
            | None =>
                user <- findOne_email Employer (lg_email req) ;;
                match user with
                | Some u =>
                    if deleted u
                    then throw (UnauthorizedError "Account deactivated")
                    else if negb (bcrypt_compare (lg_password req) (password u))
                    then throw (UnauthorizedError "Invalid credentials")
                    else ret (user, "Employer")
                | None => ret (user, snd st1)
                end
            end) ;;
    (* if (!user): the Admin probe *)
    st3 <- (match fst st2 with
            | Some _ => ret st2
            | None =>
                user <- findOne_email Admin (lg_email req) ;;
                match user with
                | Some u =>
                    if negb (bcrypt_compare (lg_password req) (password u))
                    then throw (UnauthorizedError "Invalid credentials")
                    else ret (user, or_default (role u) "Admin")
                | None => ret (user, snd st2)
                end
            end) ;;
    match fst st3 with
    | None => throw (UnauthorizedError "Invalid credentials")
    | Some user =>
        let token := generateToken user (toLowerCase (snd st3)) in
        ret (mkResponse 200
               (LoginBody (Some (snd st3)) (toJSON (instance_of user)) token))
    end).

(** [res.json] serialises the instance it is given with its [toJSON]. *)
Definition getCurrentUser (req : Identity) : World -> Outcome * World :=
  handle (
    user <- (if user_role req =? "admin" then
               u <- findByPk Admin (user_id req) ;;
               ret (option_map instance_of u)
             else if user_role req =? "employer" then
               u <- findByPk Employer (user_id req) ;;
               ret (option_map exclude_password u)
             else if user_role req =? "jobSeeker" then
               u <- findByPk JobSeeker (user_id req) ;;
               ret (option_map exclude_password u)
             else throw (UnauthorizedError "Invalid role"))%string ;;
    match user with
    | None => throw (NotFoundError "User not found")
    | Some user => ret (mkResponse 200 (UserBody (toJSON user)))
    end).

Definition changePassword (env : Env) (who : Identity) (req : ChangeBody)
  : World -> Outcome * World :=
  handle (
    loaded <- (if user_role who =? "admin" then
                 u <- findByPk Admin (user_id who) ;; ret (Admin, u)
               else if user_role who =? "employer" then
                 u <- findByPk Employer (user_id who) ;; ret (Employer, u)
               else if user_role who =? "jobSeeker" then
                 u <- findByPk JobSeeker (user_id who) ;; ret (JobSeeker, u)
               else throw (UnauthorizedError "Invalid role"))%string ;;
    match snd loaded with
    | None => throw (NotFoundError "User not found")
    | Some user =>
        let isMatch := bcrypt_compare (currentPassword req) (password user) in
        if negb isMatch
        then throw (UnauthorizedError "Current password is incorrect")
        else
          let salt := genSalt env in
          let hashedPassword := bcrypt_hash (newPassword req) salt in
          save (fst loaded) (id user)
               (fun r => set_modified (Some (now env))
                           (set_password hashedPassword r)) ;;;
          ret (mkResponse 200 (MessageBody true "Password updated successfully"))
    end).

(** [transporter.verify(callback)]: the callback only writes to the console.
    It runs at some later turn of the event loop; the trace records it where
    the call is made. *)
Definition verify_transport (env : Env) : M unit :=
  emit (if smtp_verify env then ConsoleLog else ConsoleError).

(** [await transporter.sendMail({...})]: resolves, or rejects with the
    mailer's error.  The event keeps the recipient and the reset link, not
    the fixed text around it. *)
Definition sendMail (env : Env) (to link : string) : M unit :=
  fun w =>
    match smtp_send env with
    | None => (inr tt, mkWorld (store w) (trace w ++ [SendMail to link]))
    | Some e => (inl e, mkWorld (store w) (trace w ++ [SendMail to link]))
    end.

Definition reset_model (r : string) : Partition :=
  if (r =? "employer")%string then Employer else JobSeeker.

Definition requestPasswordReset (env : Env) (req : ResetRequestBody)
  : World -> Outcome * World :=
  handle (
    let Model := reset_model (rr_role req) in
    found <- findOne_email Model (rr_email req) ;;
    match found with
    | None => ret (mkResponse 404 (MessageBody false "Email not found"))
    | Some user =>
        let resetToken := toHex (randomBytes env 32) in
        save Model (id user)
             (fun r => set_token_expiry (Some (now env + 15 * 60 * 1000))
                         (set_reset_token (Some resetToken) r)) ;;;
        verify_transport env ;;;
        let resetLink :=
          ("https://reuse-tenshoku.com/reset-password?token=" ++ resetToken
             ++ "&role=" ++ rr_role req)%string in
        sendMail env (rr_email req) resetLink ;;;
        ret (mkResponse 200 (MessageBody true "Reset email sent!"))
    end).

(** [bcrypt.hash(newPassword, 10)] draws its own salt. *)
Definition resetPassword (env : Env) (req : ResetBody)
  : World -> Outcome * World :=
  handle (
    let Model := reset_model (rs_role req) in
    found <- findOne_reset Model (rs_token req) (now env) ;;
    match found with
    | None => ret (mkResponse 400 (MessageBody false "Invalid or expired token"))
    | Some user =>
        let hashed := bcrypt_hash (rs_newPassword req) (genSalt env) in
        save Model (id user)
             (fun r => set_token_expiry None
                         (set_reset_token None (set_password hashed r))) ;;;
        ret (mkResponse 200 (MessageBody true "Password reset successful!"))
    end).

(** The per-role login of a partition, and the registration that creates
    rows in it, to state facts about all of them at once. *)
Definition login_of (p : Partition) : LoginReq -> World -> Outcome * World :=
  match p with
  | JobSeeker => loginJobSeeker
  | Employer => loginEmployer
  | Admin => loginAdmin
  end.

(** The partition the [switch (role)] of [getCurrentUser] and
    [changePassword] reads, if the tag is one of its cases. *)
Definition partition_of_role (r : string) : option Partition :=
  if (r =? "admin")%string then Some Admin
  else if (r =? "employer")%string then Some Employer
  else if (r =? "jobSeeker")%string then Some JobSeeker
  else None.

(** The row with a given email, as [findOne] picks it. *)
Definition by_email (p : Partition) (e : string) (w : World) : option Account :=
  find (fun r => String.eqb (email r) e) (table p (store w)).

(** The row with a given primary key. *)
Definition by_pk (p : Partition) (pk : Z) (w : World) : option Account :=
  find (fun r => Z.eqb (id r) pk) (table p (store w)).

(** The per-role login never distinguishes its failures: the reading of the
    specification that every failed login carries "Invalid credentials". *)
Definition login_failures_are_generic
  (login : LoginReq -> World -> Outcome * World) : Prop :=
  forall req w e,
    fst (login req w) = Next e -> e = UnauthorizedError "Invalid credentials".

(** The specification's account of unified login: the partitions are probed
    in the order JobSeeker, Employer, Admin and the first one that has the
    email decides. *)
Definition matched_partition (e : string) (w : World)
  : option (Partition * Account) :=
  match by_email JobSeeker e w with
  | Some u => Some (JobSeeker, u)
  | None =>
      match by_email Employer e w with
      | Some u => Some (Employer, u)
      | None =>
          match by_email Admin e w with
          | Some u => Some (Admin, u)
          | None => None
          end
      end
  end.

(** The role a unified login reports for an account of a partition. *)
Definition role_label (p : Partition) (u : Account) : string :=
  match p with
  | JobSeeker => "JobSeeker"
  | Employer => "Employer"
  | Admin => or_default (role u) "Admin"
  end.

(** The queries made up to and including the probe of a partition. *)
Definition probes_until (p : Partition) : list Event :=
  match p with
  | JobSeeker => [QFindOne JobSeeker]
  | Employer => [QFindOne JobSeeker; QFindOne Employer]
  | Admin => [QFindOne JobSeeker; QFindOne Employer; QFindOne Admin]
  end.

(** The two registrations, indexed by whether an employer registers. *)
Definition register_of (employer : bool)
  : Env -> RegisterBody -> World -> Outcome * World :=
  if employer then registerEmployer else registerJobSeeker.

Definition register_partition (employer : bool) : Partition :=
  if employer then Employer else JobSeeker.

Definition register_tag (employer : bool) : string :=
  if employer then "employer" else "jobSeeker".

Definition register_name_key (employer : bool) : string :=
  if employer then "clinic_name" else "name".

(** Some account of some partition has the email; nothing is asked of its
    soft-delete flag. *)
Definition email_taken (e : string) (w : World) : Prop :=
  exists p u, In u (table p (store w)) /\ email u = e.

(** Some account of the partition holds the token and its expiry lies
    strictly after time [t]. *)
Definition reset_pending (tok : string) (t : Z) (p : Partition) (w : World)
  : Prop :=
  exists u, In u (table p (store w)) /\ reset_token u = Some tok /\
            exists x, token_expiry u = Some x /\ t < x.

(** The assignments [resetPassword] makes before its [save]. *)
Definition consume_reset (h : string) (r : Account) : Account :=
  set_token_expiry None (set_reset_token None (set_password h r)).

(** The two answers of [resetPassword]. *)
Definition reset_ok : Response :=
  mkResponse 200 (MessageBody true "Password reset successful!").

Definition reset_refused : Response :=
  mkResponse 400 (MessageBody false "Invalid or expired token").

(** The assignments [requestPasswordReset] makes before its [save]. *)
Definition issue_reset (tok : string) (t : Z) (r : Account) : Account :=
  set_token_expiry (Some (t + 15 * 60 * 1000)) (set_reset_token (Some tok) r).

(** The reading of the specification that a reset request for an existing
    account is answered with 200 whatever the mailer does. *)
Definition reset_request_always_reports_success : Prop :=
  forall env req w u,
    by_email (reset_model (rr_role req)) (rr_email req) w = Some u ->
    exists b, fst (requestPasswordReset env req w) = Sent (mkResponse 200 b).

(** The assignments [changePassword] makes before its [save]. *)
Definition replace_password (h : string) (t : Z) (r : Account) : Account :=
  set_modified (Some t) (set_password h r).

(** Two rows agree on every column but the password hash and the
    modification time. *)
Definition same_but_password (r r' : Account) : Prop :=
  id r' = id r /\ email r' = email r /\ deleted r' = deleted r /\
  reset_token r' = reset_token r /\ token_expiry r' = token_expiry r /\
  role r' = role r /\ other r' = other r.

(** The handlers the module exports, as one type of calls, and a run of
    several calls one after the other on the same store. *)
Inductive Call : Type :=
| RegisterJobSeeker (env : Env) (req : RegisterBody)
| RegisterEmployer (env : Env) (req : RegisterBody)
| LoginJobSeeker (req : LoginReq)
| LoginEmployer (req : LoginReq)
| LoginAdmin (req : LoginReq)
| UnifiedLogin (req : LoginReq)
| GetCurrentUser (who : Identity)
| ChangePassword (env : Env) (who : Identity) (req : ChangeBody)
| RequestPasswordReset (env : Env) (req : ResetRequestBody)
| ResetPassword (env : Env) (req : ResetBody).

Definition call (c : Call) : World -> Outcome * World :=
  match c with
  | RegisterJobSeeker env req => registerJobSeeker env req
  | RegisterEmployer env req => registerEmployer env req
  | LoginJobSeeker req => loginJobSeeker req
  | LoginEmployer req => loginEmployer req
  | LoginAdmin req => loginAdmin req
  | UnifiedLogin req => unifiedLogin req
  | GetCurrentUser who => getCurrentUser who
  | ChangePassword env who req => changePassword env who req
  | RequestPasswordReset env req => requestPasswordReset env req
  | ResetPassword env req => resetPassword env req
  end.

Fixpoint calls (cs : list Call) (w : World) : World :=
  match cs with
  | [] => w
  | c :: cs' => calls cs' (snd (call c w))
  end.

(** The role label a per-role login reports, the role it signs into the
    token, and whether it tests the soft-delete flag. *)
Definition login_label (p : Partition) (u : Account) : option string :=
  match p with
  | JobSeeker => Some "JobSeeker"
  | Employer => Some "Employer"
  | Admin => role u
  end.

Definition login_tag (p : Partition) : string :=
  match p with
  | JobSeeker => "jobseeker"
  | Employer => "employer"
  | Admin => "admin"
  end.

Definition checks_deleted (p : Partition) : bool :=
  match p with
  | Admin => false
  | _ => true
  end.

(** The profile and the token of an answer that carries them. *)
Definition credentials_of (b : Body) : option (Profile * Token) :=
  match b with
  | RegisteredBody user token => Some (user, token)
  | LoginBody _ user token => Some (user, token)
  | _ => None
  end.

(** The emails of all accounts, partition after partition. *)
Definition all_emails (s : Store) : list string :=
  (map email (jobSeekers s) ++ map email (employers s)
     ++ map email (admins s))%list.

(** The number of inserts and updates among some effects. *)
Definition is_write (ev : Event) : bool :=
  match ev with
  | QInsert _ _ => true
  | QUpdate _ _ => true
  | _ => false
  end.

Definition writes (evs : list Event) : nat :=
  List.length (filter is_write evs).

(** The link [requestPasswordReset] puts in its message. *)
Definition reset_link (tok r : string) : string :=
  ("https://reuse-tenshoku.com/reset-password?token=" ++ tok
     ++ "&role=" ++ r)%string.

(** The calls that answer with a token when they succeed. *)
Definition issues_token (c : Call) : bool :=
  match c with
  | RegisterJobSeeker _ _ | RegisterEmployer _ _
  | LoginJobSeeker _ | LoginEmployer _ | LoginAdmin _ | UnifiedLogin _ => true
  | _ => false
  end.

(** An assignment to a loaded instance that leaves its key, its email and
    its soft-delete flag alone. *)
Definition keeps_identity (f : Account -> Account) : Prop :=
  forall r, id (f r) = id r /\ email (f r) = email r /\
            deleted (f r) = deleted r.

(** How one call may change the world: not at all, by one update of the rows
    with some key, or by one insert of a row whose email no account had. *)
Inductive Effect (w w' : World) : Prop :=
| NoWrite :
    store w' = store w ->
    Effect w w'
| OneUpdate (p : Partition) (pk : Z) (f : Account -> Account) :
    keeps_identity f ->
    store w' = set_table p (update_row pk f (table p (store w))) (store w) ->
    Effect w w'
| OneInsert (p : Partition) (row : Account) :
    ~ email_taken (email row) w ->
    store w' = set_table p (table p (store w) ++ [row]) (store w) ->
    Effect w w'.


(** The error classes the controller itself throws (utils/errorTypes), as
    against an error raised by a collaborator. *)
Definition controller_error (e : Error) : bool :=
  match e with
  | OtherError _ => false
  | _ => true
  end.

(** The soft-delete flag of the row a registration creates. *)
Definition registered_deleted (req : RegisterBody) : bool :=
  match rg_deleted req with
  | Some b => b
  | None => false
  end.

(** ** Properties *)

Ltac run :=
  cbv beta delta
    [login_of loginJobSeeker loginEmployer loginAdmin unifiedLogin
     registerJobSeeker registerEmployer getCurrentUser changePassword
     requestPasswordReset resetPassword handle bind ret throw emit
     findOne_email findByPk findOne_reset save create verify_transport
     sendMail by_email by_pk] in *;
  cbn beta iota zeta delta [fst snd store trace negb] in *.

(** *** Per-role login *)

Lemma login_unknown_email (p : Partition) (req : LoginReq) (w : World) :
  by_email p (lg_email req) w = None ->
  fst (login_of p req w) = Next (UnauthorizedError "Invalid credentials").
Proof.
  intros H. destruct p; run; rewrite H; reflexivity.
Qed.

Lemma login_wrong_password (p : Partition) (req : LoginReq) (w : World)
      (u : Account) :
  by_email p (lg_email req) w = Some u ->
  p = Admin \/ deleted u = false ->
  bcrypt_compare (lg_password req) (password u) = false ->
  fst (login_of p req w) = Next (UnauthorizedError "Invalid credentials").
Proof.
  intros H Hd Hc.
  destruct p; run; rewrite H; try rewrite Hc;
    try (destruct Hd as [Hd | Hd]; [discriminate Hd | rewrite Hd]);
    try rewrite Hc; reflexivity.
Qed.

Lemma login_deactivated (p : Partition) (req : LoginReq) (w : World)
      (u : Account) :
  by_email p (lg_email req) w = Some u ->
  p <> Admin ->
  deleted u = true ->
  fst (login_of p req w) = Next (UnauthorizedError "Account deactivated").
Proof.
  intros H Hp Hd.
  destruct p; run; try (rewrite H, Hd; reflexivity).
  contradiction Hp; reflexivity.
Qed.

Lemma login_failure_cases (p : Partition) (req : LoginReq) (w : World)
      (e : Error) :
  fst (login_of p req w) = Next e ->
  e = UnauthorizedError "Invalid credentials" \/
  (e = UnauthorizedError "Account deactivated" /\ p <> Admin /\
   exists u, by_email p (lg_email req) w = Some u /\ deleted u = true).
Proof.
  destruct p; run;
    destruct (find _ _) as [u |] eqn:Hf; cbn;
    try (intros [= <-]; left; reflexivity).
  - destruct (deleted u) eqn:Hd; cbn.
    + intros [= <-]. right. split; [reflexivity | split; [discriminate |]].
      exists u. split; [reflexivity | exact Hd].
    + destruct (bcrypt_compare _ _); cbn; [discriminate |].
      intros [= <-]; left; reflexivity.
  - destruct (deleted u) eqn:Hd; cbn.
    + intros [= <-]. right. split; [reflexivity | split; [discriminate |]].
      exists u. split; [reflexivity | exact Hd].
    + destruct (bcrypt_compare _ _); cbn; [discriminate |].
      intros [= <-]; left; reflexivity.
  - destruct (bcrypt_compare _ _); cbn; [discriminate |].
    intros [= <-]; left; reflexivity.
Qed.

Lemma login_keeps_store (p : Partition) (req : LoginReq) (w : World) :
  store (snd (login_of p req w)) = store w.
Proof.
  destruct p; run; destruct (find _ _) as [u |]; cbn; try reflexivity;
    try (destruct (deleted u); cbn; try reflexivity);
    destruct (bcrypt_compare _ _); reflexivity.
Qed.

(** C1 (as amended).  A failed per-role login always hands an
    [UnauthorizedError] to the error middleware and leaves the store as it
    was.  The message is "Invalid credentials" both when no account of the
    partition has the email and when the password does not verify, so these
    two cannot be told apart; a soft-deleted JobSeeker or Employer account is
    answered with the message "Account deactivated" instead, and an Admin
    login has no such case. *)
Theorem login_failure_messages (p : Partition) (req : LoginReq) (w : World) :
  (by_email p (lg_email req) w = None ->
   fst (login_of p req w) = Next (UnauthorizedError "Invalid credentials")) /\
  (forall u,
     by_email p (lg_email req) w = Some u ->
     p = Admin \/ deleted u = false ->
     bcrypt_compare (lg_password req) (password u) = false ->
     fst (login_of p req w) = Next (UnauthorizedError "Invalid credentials")) /\
  (forall u,
     by_email p (lg_email req) w = Some u ->
     p <> Admin ->
     deleted u = true ->
     fst (login_of p req w) = Next (UnauthorizedError "Account deactivated")) /\
  (forall e,
     fst (login_of p req w) = Next e ->
     e = UnauthorizedError "Invalid credentials" \/
     (e = UnauthorizedError "Account deactivated" /\ p <> Admin /\
      exists u, by_email p (lg_email req) w = Some u /\ deleted u = true)) /\
  store (snd (login_of p req w)) = store w.
Proof.
  split; [apply login_unknown_email |].
  split; [apply login_wrong_password |].
  split; [apply login_deactivated |].
  split; [apply login_failure_cases | apply login_keeps_store].
Qed.

(** *** Unified login *)

Lemma unified_no_match (req : LoginReq) (w : World) :
  matched_partition (lg_email req) w = None ->
  unifiedLogin req w =
  (Next (UnauthorizedError "Invalid credentials"),
   mkWorld (store w) (trace w ++ probes_until Admin)).
Proof.
  unfold matched_partition, by_email. run. cbn [table].
  destruct (find _ (jobSeekers _)); [discriminate |]. cbn.
  destruct (find _ (employers _)); [discriminate |]. cbn.
  destruct (find _ (admins _)); [discriminate |]. cbn.
  intros _. rewrite <- !app_assoc. reflexivity.
Qed.

Lemma unified_match (req : LoginReq) (w : World) (p : Partition) (u : Account) :
  matched_partition (lg_email req) w = Some (p, u) ->
  by_email p (lg_email req) w = Some u /\
  unifiedLogin req w =
  (match fst (login_of p req w) with
   | Next e => Next e
   | Sent _ =>
       Sent (mkResponse 200
               (LoginBody (Some (role_label p u)) (toJSON (instance_of u))
                          (generateToken u (toLowerCase (role_label p u)))))
   end,
   mkWorld (store w) (trace w ++ probes_until p)).
Proof.
  unfold matched_partition, by_email. run. cbn [table].
  destruct (find _ (jobSeekers _)) as [a |] eqn:Ha; cbn.
  { intros [= <- <-]. split; [exact Ha |]. cbn. rewrite Ha.
    destruct (deleted a); cbn; [reflexivity |].
    destruct (bcrypt_compare _ _); reflexivity. }
  destruct (find _ (employers _)) as [b |] eqn:Hb; cbn.
  { intros [= <- <-]. split; [exact Hb |]. cbn. rewrite Hb.
    destruct (deleted b); cbn; rewrite <- ?app_assoc; [reflexivity |].
    destruct (bcrypt_compare _ _); reflexivity. }
  destruct (find _ (admins _)) as [c |] eqn:Hc; cbn; [| discriminate].
  intros [= <- <-]. split; [exact Hc |]. cbn. rewrite Hc.
  destruct (bcrypt_compare _ _); cbn; rewrite <- !app_assoc; reflexivity.
Qed.

(** *** Registration *)

Lemma by_email_none (p : Partition) (e : string) (w : World) :
  by_email p e w = None <->
  (forall u, In u (table p (store w)) -> email u <> e).
Proof.
  unfold by_email. split.
  - intros H u Hin Heq.
    pose proof (find_none _ _ H u Hin) as Hf. cbn in Hf.
    rewrite Heq, String.eqb_refl in Hf. discriminate.
  - intros H. destruct (find _ _) as [u |] eqn:Hf; [| reflexivity].
    apply find_some in Hf. destruct Hf as [Hin Heq].
    apply String.eqb_eq in Heq. exfalso. exact (H u Hin Heq).
Qed.

Lemma email_taken_probe (e : string) (w : World) :
  email_taken e w <->
  is_some (by_email JobSeeker e w) || is_some (by_email Employer e w)
  || is_some (by_email Admin e w) = true.
Proof.
  split.
  - intros (p & u & Hin & Heq).
    destruct (by_email p e w) as [v |] eqn:Hp.
    + destruct p; rewrite Hp; cbn; rewrite ?orb_true_r; reflexivity.
    + exfalso. rewrite by_email_none in Hp. exact (Hp u Hin Heq).
  - intros H.
    destruct (by_email JobSeeker e w) as [u |] eqn:Hj.
    { apply find_some in Hj. destruct Hj as [Hin Heq].
      apply String.eqb_eq in Heq. exists JobSeeker, u. auto. }
    destruct (by_email Employer e w) as [u |] eqn:He.
    { apply find_some in He. destruct He as [Hin Heq].
      apply String.eqb_eq in Heq. exists Employer, u. auto. }
    destruct (by_email Admin e w) as [u |] eqn:Ha; [| discriminate H].
    apply find_some in Ha. destruct Ha as [Hin Heq].
    apply String.eqb_eq in Heq. exists Admin, u. auto.
Qed.

Lemma email_taken_dec (e : string) (w : World) :
  email_taken e w \/ ~ email_taken e w.
Proof.
  rewrite email_taken_probe.
  destruct (_ || _); [left; reflexivity | right; discriminate].
Qed.

Lemma register_duplicate (employer : bool) (env : Env) (req : RegisterBody)
      (w : World) :
  email_taken (rg_email req) w ->
  register_of employer env req w =
  (Next (BadRequestError "Email is already registered"),
   mkWorld (store w) (trace w ++ probes_until Admin)).
Proof.
  intros H. apply email_taken_probe in H. revert H.
  unfold by_email.
  destruct employer; cbn [register_of register_partition]; run;
    intros ->; run; rewrite <- !app_assoc; reflexivity.
Qed.

Lemma register_fresh (employer : bool) (env : Env) (req : RegisterBody)
      (w : World) :
  ~ email_taken (rg_email req) w ->
  let p := register_partition employer in
  let row :=
    mkAccount (next_id (table p (store w))) (rg_email req)
              (bcrypt_hash (rg_password req) (genSalt env))
              (match rg_deleted req with Some b => b | None => false end)
              (rg_reset_token req) (rg_token_expiry req) None None
              ((register_name_key employer, rg_name req) :: rg_otherData req) in
  register_of employer env req w =
  (Sent (mkResponse 201
           (RegisteredBody (toJSON (instance_of row))
                           (generateToken row (register_tag employer)))),
   mkWorld (set_table p (table p (store w) ++ [row]) (store w))
           (trace w ++ probes_until Admin ++ [QInsert p row])).
Proof.
  intros H. rewrite email_taken_probe in H.
  apply not_true_is_false in H. revert H.
  unfold by_email.
  destruct employer; cbn [register_of register_partition]; run;
    intros ->; run; rewrite <- !app_assoc; reflexivity.
Qed.

(** C3.  Either registration, asked to register an email that some account
    of any of the three partitions already has (soft-deleted or not), hands
    [BadRequestError] to the error middleware and leaves the store
    untouched: the only effects are the three look-ups.  On every run the
    look-ups in JobSeeker, Employer and Admin come first, and the insert, if
    there is one, after them. *)
Theorem register_rejects_taken_email (employer : bool) (env : Env)
        (req : RegisterBody) (w : World) :
  (email_taken (rg_email req) w ->
   fst (register_of employer env req w) =
     Next (BadRequestError "Email is already registered") /\
   store (snd (register_of employer env req w)) = store w /\
   trace (snd (register_of employer env req w)) =
     (trace w ++ [QFindOne JobSeeker; QFindOne Employer; QFindOne Admin])%list) /\
  (exists rest,
     trace (snd (register_of employer env req w)) =
       (trace w ++ [QFindOne JobSeeker; QFindOne Employer; QFindOne Admin]
          ++ rest)%list /\
     (rest = [] \/
      exists row, rest = [QInsert (register_partition employer) row])).
Proof.
  split.
  - intros H. rewrite (register_duplicate employer env req w H).
    repeat split.
  - destruct (email_taken_dec (rg_email req) w) as [H | H].
    + rewrite (register_duplicate employer env req w H). cbn [snd trace].
      exists []. rewrite app_nil_r. split; [reflexivity | left; reflexivity].
    + rewrite (register_fresh employer env req w H). cbn [snd trace].
      eexists. split; [reflexivity |]. right. eexists. reflexivity.
Qed.

Lemma set_table_same (p : Partition) (t : list Account) (s : Store) :
  table p (set_table p t s) = t.
Proof. destruct p; reflexivity. Qed.

Lemma set_table_other (p q : Partition) (t : list Account) (s : Store) :
  q <> p -> table q (set_table p t s) = table q s.
Proof. destruct p, q; intros H; try reflexivity; contradiction H; reflexivity. Qed.

(** C4.  A registration of an email no account has succeeds: the answer has
    status 201 and carries the created profile as the models' [toJSON] gives
    it, which has no password attribute, and a token issued for the created
    row (its id and email, the role tag of the registration).  Exactly one row is appended to the
    registering partition, the other partitions are unchanged, and the
    password column of that row is [bcrypt.hash] of the submitted password
    under the salt drawn for this request; it differs from the cleartext as
    soon as the hash function never returns its input.  A registration that
    answers at all was of an email no account had. *)
Theorem register_success (employer : bool) (env : Env) (req : RegisterBody)
        (w : World) :
  (~ email_taken (rg_email req) w ->
   exists row user token w',
     register_of employer env req w =
       (Sent (mkResponse 201 (RegisteredBody user token)), w') /\
     user = toJSON (instance_of row) /\
     p_password user = None /\
     p_id user = id row /\
     p_email user = rg_email req /\
     p_other user =
       (register_name_key employer, rg_name req) :: rg_otherData req /\
     token = generateToken row (register_tag employer) /\
     tk_id token = id row /\
     tk_email token = rg_email req /\
     tk_role token = register_tag employer /\
     table (register_partition employer) (store w') =
       (table (register_partition employer) (store w) ++ [row])%list /\
     (forall q, q <> register_partition employer ->
                table q (store w') = table q (store w)) /\
     email row = rg_email req /\
     password row = bcrypt_hash (rg_password req) (genSalt env) /\
     ((forall d s, bcrypt_hash d s <> d) -> password row <> rg_password req)) /\
  (forall r w',
     register_of employer env req w = (Sent r, w') ->
     ~ email_taken (rg_email req) w).
Proof.
  split.
  - intros H. pose proof (register_fresh employer env req w H) as Hr.
    cbv zeta in Hr.
    match type of Hr with context [QInsert _ ?r] => exists r end.
    do 3 eexists. split; [exact Hr |].
    cbn [toJSON instance_of generateToken p_password p_id p_email p_other
         tk_id tk_email tk_role id email password other store].
    repeat (split; [reflexivity |]).
    split; [apply set_table_same |].
    split; [intros q Hq; apply set_table_other; exact Hq |].
    repeat (split; [reflexivity |]).
    intros Hh. apply Hh.
  - intros r w' Hs Ht.
    rewrite (register_duplicate employer env req w Ht) in Hs. discriminate Hs.
Qed.

(** *** Password reset *)

Lemma find_none_iff {A : Type} (f : A -> bool) (l : list A) :
  find f l = None <-> (forall x, In x l -> f x = false).
Proof.
  split; [apply find_none |].
  induction l as [| a l IH]; intros H; cbn; [reflexivity |].
  rewrite (H a (or_introl eq_refl)). apply IH.
  intros x Hx. apply H. right. exact Hx.
Qed.

Lemma reset_matches_true (tok : string) (t : Z) (r : Account) :
  reset_matches tok t r = true <->
  reset_token r = Some tok /\ exists x, token_expiry r = Some x /\ t < x.
Proof.
  unfold reset_matches.
  destruct (reset_token r) as [k |], (token_expiry r) as [x |]; cbn.
  - rewrite andb_true_iff, String.eqb_eq, Z.ltb_lt. split.
    + intros [-> Hx]. split; [reflexivity |]. exists x. auto.
    + intros [[= ->] (y & [= <-] & Hy)]. auto.
  - split; [discriminate | intros [_ (y & Hy & _)]; discriminate].
  - split; [discriminate | intros [Hk _]; discriminate].
  - split; [discriminate | intros [Hk _]; discriminate].
Qed.

Lemma reset_pending_find (tok : string) (t : Z) (p : Partition) (w : World) :
  reset_pending tok t p w <->
  exists u, find (reset_matches tok t) (table p (store w)) = Some u.
Proof.
  split.
  - intros (u & Hin & Hu).
    destruct (find _ _) as [v |] eqn:Hf; [exists v; reflexivity |].
    rewrite find_none_iff in Hf. specialize (Hf u Hin).
    apply reset_matches_true in Hu. congruence.
  - intros (u & Hf). apply find_some in Hf. destruct Hf as [Hin Hm].
    apply reset_matches_true in Hm. exists u. auto.
Qed.

Lemma resetPassword_no_match (env : Env) (req : ResetBody) (w : World) :
  find (reset_matches (rs_token req) (now env))
       (table (reset_model (rs_role req)) (store w)) = None ->
  resetPassword env req w =
  (Sent reset_refused,
   mkWorld (store w) (trace w ++ [QFindOne (reset_model (rs_role req))])).
Proof.
  intros H. run. rewrite H. reflexivity.
Qed.

Lemma resetPassword_match (env : Env) (req : ResetBody) (w : World)
      (u : Account) :
  find (reset_matches (rs_token req) (now env))
       (table (reset_model (rs_role req)) (store w)) = Some u ->
  resetPassword env req w =
  (Sent reset_ok,
   mkWorld (set_table (reset_model (rs_role req))
              (update_row (id u)
                 (consume_reset (bcrypt_hash (rs_newPassword req) (genSalt env)))
                 (table (reset_model (rs_role req)) (store w)))
              (store w))
           (trace w ++ [QFindOne (reset_model (rs_role req));
                        QUpdate (reset_model (rs_role req)) (id u)])).
Proof.
  intros H. run. rewrite H. run. rewrite <- app_assoc. reflexivity.
Qed.

Lemma in_update_row (pk : Z) (f : Account -> Account) (t : list Account)
      (r' : Account) :
  In r' (update_row pk f t) ->
  exists r, In r t /\ ((id r = pk /\ r' = f r) \/ (id r <> pk /\ r' = r)).
Proof.
  unfold update_row. rewrite in_map_iff. intros (r & Hr & Hin).
  exists r. split; [exact Hin |].
  destruct (Z.eqb_spec (id r) pk); [left | right]; auto.
Qed.




(** *** Reset request *)

Lemma toHex_length (l : list byte) :
  String.length (toHex l) = (2 * List.length l)%nat.
Proof.
  induction l as [| b l IH]; [reflexivity |].
  cbn [toHex String.length List.length]. rewrite IH. lia.
Qed.

Lemma toHex_digits (l : list byte) : all_chars is_hex_digit (toHex l) = true.
Proof.
  induction l as [| b l IH]; [reflexivity |].
  cbn [toHex all_chars]. rewrite IH.
  destruct b; reflexivity.
Qed.

Lemma fromHex_toHex (l : list byte) : fromHex (toHex l) = Some l.
Proof.
  induction l as [| b l IH]; [reflexivity |].
  cbn [toHex fromHex]. rewrite IH.
  destruct b; reflexivity.
Qed.

Lemma randomBytes_length (env : Env) (n : nat) :
  List.length (randomBytes env n) = n.
Proof.
  unfold randomBytes. rewrite length_map, length_seq. reflexivity.
Qed.

Lemma requestPasswordReset_found (env : Env) (req : ResetRequestBody)
      (w : World) (u : Account) :
  by_email (reset_model (rr_role req)) (rr_email req) w = Some u ->
  let p := reset_model (rr_role req) in
  let tok := toHex (randomBytes env 32) in
  let link := ("https://reuse-tenshoku.com/reset-password?token=" ++ tok
                 ++ "&role=" ++ rr_role req)%string in
  requestPasswordReset env req w =
  (match smtp_send env with
   | None => Sent (mkResponse 200 (MessageBody true "Reset email sent!"))
   | Some e => Next e
   end,
   mkWorld (set_table p (update_row (id u) (issue_reset tok (now env))
                           (table p (store w))) (store w))
           (trace w ++ [QFindOne p; QUpdate p (id u);
                        if smtp_verify env then ConsoleLog else ConsoleError;
                        SendMail (rr_email req) link])).
Proof.
  intros H. run. rewrite H. run.
  destruct (smtp_send env); run; rewrite <- !app_assoc; reflexivity.
Qed.

(** C6 (as amended).  When the selected partition has an account with the
    email, [requestPasswordReset] draws 32 random bytes (256 bits) and takes
    their hexadecimal encoding as the token: 64 hexadecimal digits from which
    the bytes can be read back.  It stores the token on the account together
    with an expiry 15 minutes (900000 ms) after the current time.  A failed
    connection check of the mailer is only logged and changes nothing of the
    outcome.  The answer is 200 "Reset email sent!" when sending the message
    succeeds; when sending fails with an error, that error is handed to the
    error middleware instead, the token staying stored. *)
Theorem requestPasswordReset_contract (env : Env) (req : ResetRequestBody)
        (w : World) (u : Account) :
  by_email (reset_model (rr_role req)) (rr_email req) w = Some u ->
  let p := reset_model (rr_role req) in
  let tok := toHex (randomBytes env 32) in
  let out := requestPasswordReset env req w in
  (List.length (randomBytes env 32) = 32%nat /\
   String.length tok = 64%nat /\
   all_chars is_hex_digit tok = true /\
   fromHex tok = Some (randomBytes env 32)) /\
  (table p (store (snd out)) =
     update_row (id u) (issue_reset tok (now env)) (table p (store w)) /\
   (forall q, q <> p -> table q (store (snd out)) = table q (store w)) /\
   forall r', In r' (table p (store (snd out))) -> id r' = id u ->
              reset_token r' = Some tok /\
              token_expiry r' = Some (now env + 900000)) /\
  (smtp_send env = None ->
   fst out = Sent (mkResponse 200 (MessageBody true "Reset email sent!"))) /\
  (forall e, smtp_send env = Some e -> fst out = Next e) /\
  (exists link,
     trace (snd out) =
       (trace w ++ [QFindOne p; QUpdate p (id u);
                    if smtp_verify env then ConsoleLog else ConsoleError;
                    SendMail (rr_email req) link])%list).
Proof.
  intros H p tok out. subst out.
  rewrite (requestPasswordReset_found env req w u H).
  fold p. fold tok. cbn [fst snd store trace].
  split.
  { split; [apply randomBytes_length |].
    split; [unfold tok; rewrite toHex_length, randomBytes_length; reflexivity |].
    split; [apply toHex_digits | apply fromHex_toHex]. }
  split.
  { split; [apply set_table_same |].
    split; [intros q Hq; apply set_table_other; exact Hq |].
    intros r' Hr' Hid. rewrite set_table_same in Hr'.
    apply in_update_row in Hr'.
    destruct Hr' as (r & _ & [[_ ->] | [Hne ->]]).
    - split; reflexivity.
    - contradiction Hne. }
  split; [intros ->; reflexivity |].
  split; [intros e ->; reflexivity |].
  eexists. reflexivity.
Qed.

(** *** Current user *)

Lemma partition_of_role_cases (r : string) :
  (partition_of_role r = Some Admin /\ r = "admin") \/
  (partition_of_role r = Some Employer /\ r = "employer") \/
  (partition_of_role r = Some JobSeeker /\ r = "jobSeeker") \/
  (partition_of_role r = None /\
   r <> "admin" /\ r <> "employer" /\ r <> "jobSeeker").
Proof.
  unfold partition_of_role.
  destruct (String.eqb_spec r "admin") as [-> | Ha]; [left; auto |].
  destruct (String.eqb_spec r "employer") as [-> | He]; [right; left; auto |].
  destruct (String.eqb_spec r "jobSeeker") as [-> | Hj];
    [right; right; left; auto |].
  right; right; right. auto.
Qed.

Lemma getCurrentUser_run (who : Identity) (w : World) :
  getCurrentUser who w =
  match partition_of_role (user_role who) with
  | None => (Next (UnauthorizedError "Invalid role"), w)
  | Some p =>
      (match by_pk p (user_id who) w with
       | None => Next (NotFoundError "User not found")
       | Some u =>
           Sent (mkResponse 200
                   (UserBody (toJSON (match p with
                                      | Admin => instance_of u
                                      | _ => exclude_password u
                                      end))))
       end,
       mkWorld (store w) (trace w ++ [QFindByPk p (user_id who)]))
  end.
Proof.
  unfold partition_of_role. run.
  destruct (user_role who =? "admin")%string.
  { run. destruct (find _ _); reflexivity. }
  destruct (user_role who =? "employer")%string.
  { run. destruct (find _ _); reflexivity. }
  destruct (user_role who =? "jobSeeker")%string.
  { run. destruct (find _ _); reflexivity. }
  reflexivity.
Qed.

(** C7.  [getCurrentUser] reads the partition its [switch] selects for the
    role tag, by primary key.  For each of the tags "admin", "employer" and
    "jobSeeker": when a row has the id, the answer is 200 with that
    account's profile, which has no password attribute; when none has it, a
    [NotFoundError] goes to the error middleware.  Any other tag gives an
    [UnauthorizedError].  The store is never changed.  For "employer" and
    "jobSeeker" the query already leaves the password out of the instance;
    for "admin" the instance has it and the models' [toJSON] removes it when
    the answer is serialised. *)
Theorem getCurrentUser_contract (who : Identity) (w : World) :
  match partition_of_role (user_role who) with
  | Some p =>
      match by_pk p (user_id who) w with
      | Some u =>
          exists prof,
            fst (getCurrentUser who w) = Sent (mkResponse 200 (UserBody prof)) /\
            p_password prof = None /\
            (exists inst,
               prof = toJSON inst /\
               p_password inst = match p with
                                 | Admin => Some (password u)
                                 | _ => None
                                 end) /\
            p_id prof = user_id who /\
            p_id prof = id u /\ p_email prof = email u /\
            p_deleted prof = deleted u /\ p_role prof = role u /\
            p_other prof = other u /\
            In u (table p (store w))
      | None =>
          fst (getCurrentUser who w) = Next (NotFoundError "User not found")
      end /\
      trace (snd (getCurrentUser who w)) =
        (trace w ++ [QFindByPk p (user_id who)])%list
  | None =>
      fst (getCurrentUser who w) = Next (UnauthorizedError "Invalid role")
  end /\
  store (snd (getCurrentUser who w)) = store w /\
  partition_of_role "admin" = Some Admin /\
  partition_of_role "employer" = Some Employer /\
  partition_of_role "jobSeeker" = Some JobSeeker /\
  (partition_of_role (user_role who) = None <->
   user_role who <> "admin" /\ user_role who <> "employer" /\
   user_role who <> "jobSeeker").
Proof.
  rewrite getCurrentUser_run.
  split; [| split].
  - destruct (partition_of_role (user_role who)) as [p |]; [| reflexivity].
    cbn [fst snd trace]. split; [| reflexivity].
    destruct (by_pk p (user_id who) w) as [u |] eqn:Hu; [| reflexivity].
    apply find_some in Hu. destruct Hu as [Hin Hid].
    apply Z.eqb_eq in Hid.
    eexists. split; [reflexivity |].
    split; [reflexivity |].
    split; [eexists; split; [reflexivity | destruct p; reflexivity] |].
    destruct p; cbn; repeat split; auto.
  - destruct (partition_of_role (user_role who)); reflexivity.
  - repeat (split; [reflexivity |]).
    destruct (partition_of_role_cases (user_role who))
      as [[H E] | [[H E] | [[H E] | [H E]]]]; rewrite H;
      (split; [try discriminate; intros _; exact E |]);
      try (intros _; reflexivity);
      intros (Ha & He & Hj); congruence.
Qed.

(** *** Password change *)

Lemma changePassword_run (env : Env) (who : Identity) (req : ChangeBody)
      (w : World) :
  changePassword env who req w =
  match partition_of_role (user_role who) with
  | None => (Next (UnauthorizedError "Invalid role"), w)
  | Some p =>
      match by_pk p (user_id who) w with
      | None =>
          (Next (NotFoundError "User not found"),
           mkWorld (store w) (trace w ++ [QFindByPk p (user_id who)]))
      | Some u =>
          if bcrypt_compare (currentPassword req) (password u)
          then
            (Sent (mkResponse 200
                     (MessageBody true "Password updated successfully")),
             mkWorld
               (set_table p
                  (update_row (id u)
                     (replace_password
                        (bcrypt_hash (newPassword req) (genSalt env)) (now env))
                     (table p (store w)))
                  (store w))
               (trace w ++ [QFindByPk p (user_id who); QUpdate p (id u)]))
          else
            (Next (UnauthorizedError "Current password is incorrect"),
             mkWorld (store w) (trace w ++ [QFindByPk p (user_id who)]))
      end
  end.
Proof.
  unfold partition_of_role. run.
  destruct (user_role who =? "admin")%string.
  { run. destruct (find _ _) as [u |]; [| reflexivity]. run.
    destruct (bcrypt_compare _ _); run; rewrite <- ?app_assoc; reflexivity. }
  destruct (user_role who =? "employer")%string.
  { run. destruct (find _ _) as [u |]; [| reflexivity]. run.
    destruct (bcrypt_compare _ _); run; rewrite <- ?app_assoc; reflexivity. }
  destruct (user_role who =? "jobSeeker")%string.
  { run. destruct (find _ _) as [u |]; [| reflexivity]. run.
    destruct (bcrypt_compare _ _); run; rewrite <- ?app_assoc; reflexivity. }
  reflexivity.
Qed.

Lemma update_row_frame (pk : Z) (h : string) (t : Z) (l : list Account) :
  Forall2 (fun r r' =>
             same_but_password r r' /\
             (id r = pk -> password r' = h /\ modified r' = Some t) /\
             (id r <> pk -> r' = r))
          l (update_row pk (replace_password h t) l).
Proof.
  induction l as [| r l IH]; cbn; constructor; [| exact IH].
  destruct (Z.eqb_spec (id r) pk) as [E | E].
  - split; [repeat split |]. split; [intros _; split; reflexivity |].
    intros N. contradiction (N E).
  - split; [repeat split |]. split; [intros E'; contradiction (E E') |].
    reflexivity.
Qed.

(** C8.  [changePassword], for an identity whose role tag is recognised:
    when no row has the id it hands [NotFoundError] to the error middleware,
    and when the current password does not verify against the stored hash it
    hands [UnauthorizedError] "Current password is incorrect"; in both cases
    the store is unchanged and the only effect is the look-up.  When the
    current password verifies, the answer is 200 with a message and no
    token, there is one update, the other partitions are unchanged, every
    row of the partition keeps its id, email, soft-delete flag, reset token,
    token expiry, role and other columns, the rows with another id are
    unchanged altogether, and the account's password becomes [bcrypt.hash]
    of the new password under a salt drawn for the request, its modification
    time the current time. *)
Theorem changePassword_frame (env : Env) (who : Identity) (req : ChangeBody)
        (w : World) :
  let out := changePassword env who req w in
  match partition_of_role (user_role who) with
  | None => fst out = Next (UnauthorizedError "Invalid role") /\ snd out = w
  | Some p =>
      match by_pk p (user_id who) w with
      | None =>
          fst out = Next (NotFoundError "User not found") /\
          store (snd out) = store w /\
          trace (snd out) = (trace w ++ [QFindByPk p (user_id who)])%list
      | Some u =>
          if bcrypt_compare (currentPassword req) (password u)
          then
            fst out =
              Sent (mkResponse 200
                      (MessageBody true "Password updated successfully")) /\
            trace (snd out) =
              (trace w ++ [QFindByPk p (user_id who); QUpdate p (id u)])%list /\
            id u = user_id who /\
            (forall q, q <> p -> table q (store (snd out)) = table q (store w)) /\
            Forall2
              (fun r r' =>
                 same_but_password r r' /\
                 (id r = id u ->
                  password r' = bcrypt_hash (newPassword req) (genSalt env) /\
                  modified r' = Some (now env)) /\
                 (id r <> id u -> r' = r))
              (table p (store w)) (table p (store (snd out)))
          else
            fst out = Next (UnauthorizedError "Current password is incorrect") /\
            store (snd out) = store w /\
            trace (snd out) = (trace w ++ [QFindByPk p (user_id who)])%list
      end
  end.
Proof.
  intros out. subst out. rewrite changePassword_run.
  destruct (partition_of_role (user_role who)) as [p |]; [| split; reflexivity].
  destruct (by_pk p (user_id who) w) as [u |] eqn:Hu; [| repeat split].
  destruct (bcrypt_compare _ _); [| repeat split].
  cbn [fst snd store trace].
  split; [reflexivity |]. split; [reflexivity |].
  split; [apply find_some in Hu; apply Z.eqb_eq; exact (proj2 Hu) |].
  split; [intros q Hq; apply set_table_other; exact Hq |].
  rewrite set_table_same. apply update_row_frame.
Qed.

(** *** Role tags *)









(** *** Partition of the reset flow *)

Lemma reset_model_not_employer (r : string) :
  r <> "employer" -> reset_model r = JobSeeker.
Proof.
  unfold reset_model. destruct (String.eqb_spec r "employer"); [contradiction |].
  reflexivity.
Qed.

Lemma requestPasswordReset_not_found (env : Env) (req : ResetRequestBody)
      (w : World) :
  by_email (reset_model (rr_role req)) (rr_email req) w = None ->
  requestPasswordReset env req w =
  (Sent (mkResponse 404 (MessageBody false "Email not found")),
   mkWorld (store w) (trace w ++ [QFindOne (reset_model (rr_role req))])).
Proof.
  intros H. run. rewrite H. reflexivity.
Qed.

Lemma reset_role_frame :
  (forall r, r <> "employer" -> reset_model r = JobSeeker) /\
  reset_model "employer" = Employer /\
  reset_model "admin" = JobSeeker /\
  reset_model "jobSeeker" = JobSeeker /\
  (forall r, reset_model r <> Admin) /\
  (forall env req w,
     rs_role req <> "employer" ->
     resetPassword env req w =
     resetPassword env
       (mkResetBody (rs_token req) "jobSeeker" (rs_newPassword req)) w) /\
  (forall env req w,
     rr_role req <> "employer" ->
     let out := requestPasswordReset env req w in
     let out' := requestPasswordReset env
                   (mkResetRequestBody (rr_email req) "jobSeeker") w in
     fst out = fst out' /\ store (snd out) = store (snd out')) /\
  (forall env req w,
     admins (store (snd (resetPassword env req w))) = admins (store w) /\
     ~ In (QFindOne Admin) (skipn (List.length (trace w))
                                  (trace (snd (resetPassword env req w))))) /\
  (forall env req w,
     admins (store (snd (requestPasswordReset env req w))) = admins (store w) /\
     ~ In (QFindOne Admin)
          (skipn (List.length (trace w))
                 (trace (snd (requestPasswordReset env req w))))).
Proof.
  assert (Hskip : forall (l r : list Event),
             skipn (List.length l) (l ++ r) = r).
  { intros l r. induction l as [| a l IH]; [reflexivity | exact IH]. }
  assert (Hnot : forall r, reset_model r <> Admin).
  { intros r. unfold reset_model. destruct (r =? "employer")%string;
      discriminate. }
  split; [exact reset_model_not_employer |].
  split; [reflexivity |]. split; [reflexivity |]. split; [reflexivity |].
  split; [exact Hnot |].
  split; [| split; [| split]].
  - intros env req w Hr.
    pose proof (reset_model_not_employer _ Hr) as Hm.
    destruct (find (reset_matches (rs_token req) (now env))
                   (table JobSeeker (store w))) as [u |] eqn:Hf.
    + rewrite (resetPassword_match env req w u) by (rewrite Hm; exact Hf).
      rewrite (resetPassword_match env
                 (mkResetBody (rs_token req) "jobSeeker" (rs_newPassword req))
                 w u) by exact Hf.
      cbn [rs_token rs_role rs_newPassword]. rewrite Hm. reflexivity.
    + rewrite (resetPassword_no_match env req w) by (rewrite Hm; exact Hf).
      rewrite (resetPassword_no_match env
                 (mkResetBody (rs_token req) "jobSeeker" (rs_newPassword req))
                 w) by exact Hf.
      cbn [rs_role]. rewrite Hm. reflexivity.
  - intros env req w Hr out out'. subst out out'.
    pose proof (reset_model_not_employer _ Hr) as Hm.
    destruct (by_email JobSeeker (rr_email req) w) as [u |] eqn:Hf.
    + rewrite (requestPasswordReset_found env req w u) by (rewrite Hm; exact Hf).
      rewrite (requestPasswordReset_found env
                 (mkResetRequestBody (rr_email req) "jobSeeker") w u)
        by exact Hf.
      cbn [fst snd store rr_role rr_email]. rewrite Hm.
      split; reflexivity.
    + rewrite requestPasswordReset_not_found by (rewrite Hm; exact Hf).
      rewrite (requestPasswordReset_not_found env
                 (mkResetRequestBody (rr_email req) "jobSeeker") w)
        by exact Hf.
      split; reflexivity.
  - intros env req w.
    destruct (find (reset_matches (rs_token req) (now env))
                   (table (reset_model (rs_role req)) (store w)))
      as [u |] eqn:Hf.
    + rewrite (resetPassword_match env req w u Hf). cbn [snd store trace].
      rewrite Hskip. split.
      * apply (set_table_other _ Admin).
        intros E. exact (Hnot _ (eq_sym E)).
      * intros [E | [E | []]]; [| discriminate E].
        injection E as E. exact (Hnot _ E).
    + rewrite (resetPassword_no_match env req w Hf). cbn [snd store trace].
      rewrite Hskip. split; [reflexivity |].
      intros [E | []]. injection E as E. exact (Hnot _ E).
  - intros env req w.
    destruct (by_email (reset_model (rr_role req)) (rr_email req) w)
      as [u |] eqn:Hf.
    + rewrite (requestPasswordReset_found env req w u Hf).
      cbn [snd store trace]. rewrite Hskip. split.
      * apply (set_table_other _ Admin).
        intros E. exact (Hnot _ (eq_sym E)).
      * intros [E | [E | [E | [E | []]]]]; try discriminate E.
        -- injection E as E. exact (Hnot _ E).
        -- destruct (smtp_verify env); discriminate E.
    + rewrite (requestPasswordReset_not_found env req w Hf).
      cbn [snd store trace]. rewrite Hskip. split; [reflexivity |].
      intros [E | []]. injection E as E. exact (Hnot _ E).
Qed.

Lemma requestPasswordReset_in (p : Partition) (env : Env)
      (req : ResetRequestBody) (w : World) :
  reset_model (rr_role req) = p ->
  match by_email p (rr_email req) w with
  | None =>
      requestPasswordReset env req w =
      (Sent (mkResponse 404 (MessageBody false "Email not found")),
       mkWorld (store w) (trace w ++ [QFindOne p]))
  | Some u =>
      requestPasswordReset env req w =
      (match smtp_send env with
       | None => Sent (mkResponse 200 (MessageBody true "Reset email sent!"))
       | Some e => Next e
       end,
       mkWorld
         (set_table p
            (update_row (id u)
               (issue_reset (toHex (randomBytes env 32)) (now env))
               (table p (store w))) (store w))
         (trace w ++ [QFindOne p; QUpdate p (id u);
                      if smtp_verify env then ConsoleLog else ConsoleError;
                      SendMail (rr_email req)
                        (reset_link (toHex (randomBytes env 32))
                                    (rr_role req))]))
  end.
Proof.
  intros <-.
  destruct (by_email (reset_model (rr_role req)) (rr_email req) w)
    as [u |] eqn:Hu.
  - exact (requestPasswordReset_found env req w u Hu).
  - exact (requestPasswordReset_not_found env req w Hu).
Qed.

Lemma resetPassword_in (p : Partition) (env : Env) (req : ResetBody)
      (w : World) :
  reset_model (rs_role req) = p ->
  match find (reset_matches (rs_token req) (now env)) (table p (store w)) with
  | None =>
      resetPassword env req w =
      (Sent reset_refused, mkWorld (store w) (trace w ++ [QFindOne p]))
  | Some u =>
      resetPassword env req w =
      (Sent reset_ok,
       mkWorld
         (set_table p
            (update_row (id u)
               (consume_reset (bcrypt_hash (rs_newPassword req) (genSalt env)))
               (table p (store w))) (store w))
         (trace w ++ [QFindOne p; QUpdate p (id u)]))
  end.
Proof.
  intros <-.
  destruct (find _ _) as [u |] eqn:Hu.
  - exact (resetPassword_match env req w u Hu).
  - exact (resetPassword_no_match env req w Hu).
Qed.

(** C10.  With any role other than "employer" ("admin", "jobSeeker" and
    every other string alike) both handlers of the reset flow work on the
    JobSeeker partition and on no other: the request looks the email up
    among the job seekers, answers 404 when none has it and otherwise
    stores the token on that job seeker and answers by the outcome of the
    mail; the reset looks the token up among the job seekers, answers 400
    when none matches and otherwise resets that job seeker and answers 200.
    With the role "employer" they do the same on the Employer partition.
    No role is rejected as such, a role other than "employer" does what
    "jobSeeker" does, and the Admin partition is neither read nor written. *)
Theorem reset_role_selects_partition :
  (forall env req w,
     rr_role req <> "employer" ->
     match find (fun r => String.eqb (email r) (rr_email req))
                (jobSeekers (store w)) with
     | None =>
         requestPasswordReset env req w =
         (Sent (mkResponse 404 (MessageBody false "Email not found")),
          mkWorld (store w) (trace w ++ [QFindOne JobSeeker]))
     | Some u =>
         requestPasswordReset env req w =
         (match smtp_send env with
          | None => Sent (mkResponse 200 (MessageBody true "Reset email sent!"))
          | Some e => Next e
          end,
          mkWorld
            (mkStore
               (update_row (id u)
                  (issue_reset (toHex (randomBytes env 32)) (now env))
                  (jobSeekers (store w)))
               (employers (store w)) (admins (store w)))
            (trace w ++ [QFindOne JobSeeker; QUpdate JobSeeker (id u);
                         if smtp_verify env then ConsoleLog else ConsoleError;
                         SendMail (rr_email req)
                           (reset_link (toHex (randomBytes env 32))
                                       (rr_role req))]))
     end) /\
  (forall env req w,
     rs_role req <> "employer" ->
     match find (reset_matches (rs_token req) (now env))
                (jobSeekers (store w)) with
     | None =>
         resetPassword env req w =
         (Sent reset_refused,
          mkWorld (store w) (trace w ++ [QFindOne JobSeeker]))
     | Some u =>
         resetPassword env req w =
         (Sent reset_ok,
          mkWorld
            (mkStore
               (update_row (id u)
                  (consume_reset
                     (bcrypt_hash (rs_newPassword req) (genSalt env)))
                  (jobSeekers (store w)))
               (employers (store w)) (admins (store w)))
            (trace w ++ [QFindOne JobSeeker; QUpdate JobSeeker (id u)]))
     end) /\
  (forall env req w,
     rr_role req = "employer" ->
     match find (fun r => String.eqb (email r) (rr_email req))
                (employers (store w)) with
     | None =>
         requestPasswordReset env req w =
         (Sent (mkResponse 404 (MessageBody false "Email not found")),
          mkWorld (store w) (trace w ++ [QFindOne Employer]))
     | Some u =>
         requestPasswordReset env req w =
         (match smtp_send env with
          | None => Sent (mkResponse 200 (MessageBody true "Reset email sent!"))
          | Some e => Next e
          end,
          mkWorld
            (mkStore
               (jobSeekers (store w))
               (update_row (id u)
                  (issue_reset (toHex (randomBytes env 32)) (now env))
                  (employers (store w)))
               (admins (store w)))
            (trace w ++ [QFindOne Employer; QUpdate Employer (id u);
                         if smtp_verify env then ConsoleLog else ConsoleError;
                         SendMail (rr_email req)
                           (reset_link (toHex (randomBytes env 32))
                                       (rr_role req))]))
     end) /\
  (forall env req w,
     rs_role req = "employer" ->
     match find (reset_matches (rs_token req) (now env))
                (employers (store w)) with
     | None =>
         resetPassword env req w =
         (Sent reset_refused,
          mkWorld (store w) (trace w ++ [QFindOne Employer]))
     | Some u =>
         resetPassword env req w =
         (Sent reset_ok,
          mkWorld
            (mkStore
               (jobSeekers (store w))
               (update_row (id u)
                  (consume_reset
                     (bcrypt_hash (rs_newPassword req) (genSalt env)))
                  (employers (store w)))
               (admins (store w)))
            (trace w ++ [QFindOne Employer; QUpdate Employer (id u)]))
     end) /\
  (forall env req w,
     rs_role req <> "employer" ->
     resetPassword env req w =
     resetPassword env
       (mkResetBody (rs_token req) "jobSeeker" (rs_newPassword req)) w) /\
  (forall env req w,
     rr_role req <> "employer" ->
     let out := requestPasswordReset env req w in
     let out' := requestPasswordReset env
                   (mkResetRequestBody (rr_email req) "jobSeeker") w in
     fst out = fst out' /\ store (snd out) = store (snd out')) /\
  (forall env req w,
     admins (store (snd (resetPassword env req w))) = admins (store w) /\
     ~ In (QFindOne Admin) (skipn (List.length (trace w))
                                  (trace (snd (resetPassword env req w))))) /\
  (forall env req w,
     admins (store (snd (requestPasswordReset env req w))) = admins (store w) /\
     ~ In (QFindOne Admin)
          (skipn (List.length (trace w))
                 (trace (snd (requestPasswordReset env req w))))).
Proof.
  split; [| split; [| split; [| split]]].
  - intros env req w Hr.
    exact (requestPasswordReset_in JobSeeker env req w
             (reset_model_not_employer _ Hr)).
  - intros env req w Hr.
    exact (resetPassword_in JobSeeker env req w
             (reset_model_not_employer _ Hr)).
  - intros env req w Hr.
    apply (requestPasswordReset_in Employer env req w).
    rewrite Hr. reflexivity.
  - intros env req w Hr.
    apply (resetPassword_in Employer env req w).
    rewrite Hr. reflexivity.
  - exact (proj2 (proj2 (proj2 (proj2 (proj2 reset_role_frame))))).
Qed.

(** ** Further properties of the handlers *)

(** *** Successful logins and issued tokens *)

Lemma login_run (p : Partition) (req : LoginReq) (w : World) :
  login_of p req w =
  (match by_email p (lg_email req) w with
   | None => Next (UnauthorizedError "Invalid credentials")
   | Some u =>
       if checks_deleted p && deleted u
       then Next (UnauthorizedError "Account deactivated")
       else if bcrypt_compare (lg_password req) (password u)
       then Sent (mkResponse 200
                    (LoginBody (login_label p u) (toJSON (instance_of u))
                               (generateToken u (login_tag p))))
       else Next (UnauthorizedError "Invalid credentials")
   end,
   mkWorld (store w) (trace w ++ [QFindOne p])).
Proof.
  destruct p; run; destruct (find _ _) as [u |]; cbn; try reflexivity;
    try (destruct (deleted u); cbn; try reflexivity);
    destruct (bcrypt_compare _ _); reflexivity.
Qed.

(** C2.  [unifiedLogin] probes JobSeeker, then Employer, then Admin and stops
    at the first partition that has the email (the queries it makes are
    exactly the probes up to that partition).  In the matched partition it
    fails exactly when the per-role login of that partition fails, with the
    same error: a soft-deleted JobSeeker or Employer account is refused, an
    Admin account is not tested for it, and a password that does not verify
    is refused.  When it succeeds the reported role is "JobSeeker" or
    "Employer" for these partitions and, for Admin, the role label stored on
    the account, or "Admin" when none or an empty one is stored; the token
    carries the reported role in lower case.  With no match, and on every
    failure, the error is an [UnauthorizedError]. *)
Theorem unifiedLogin_priority (req : LoginReq) (w : World) :
  match matched_partition (lg_email req) w with
  | None =>
      fst (unifiedLogin req w) = Next (UnauthorizedError "Invalid credentials")
  | Some (p, u) =>
      by_email p (lg_email req) w = Some u /\
      (forall e, fst (login_of p req w) = Next e ->
                 fst (unifiedLogin req w) = Next e) /\
      (p <> Admin -> deleted u = true ->
       fst (unifiedLogin req w) =
         Next (UnauthorizedError "Account deactivated")) /\
      (p = Admin \/ deleted u = false ->
       bcrypt_compare (lg_password req) (password u) = false ->
       fst (unifiedLogin req w) =
         Next (UnauthorizedError "Invalid credentials")) /\
      (p = Admin \/ deleted u = false ->
       bcrypt_compare (lg_password req) (password u) = true ->
       exists lbl,
         fst (unifiedLogin req w) =
           Sent (mkResponse 200
                   (LoginBody (Some lbl) (toJSON (instance_of u))
                              (generateToken u (toLowerCase lbl)))) /\
         (p = JobSeeker -> lbl = "JobSeeker") /\
         (p = Employer -> lbl = "Employer") /\
         (p = Admin -> role u = None \/ role u = Some "" -> lbl = "Admin") /\
         (p = Admin -> forall s, role u = Some s -> s <> "" -> lbl = s)) /\
      trace (snd (unifiedLogin req w)) = (trace w ++ probes_until p)%list
  end /\
  (forall e, fst (unifiedLogin req w) = Next e ->
             exists msg, e = UnauthorizedError msg) /\
  store (snd (unifiedLogin req w)) = store w.
Proof.
  destruct (matched_partition (lg_email req) w) as [[p u] |] eqn:Hm.
  - destruct (unified_match req w p u Hm) as [Hu Heq].
    rewrite Heq. cbn [fst snd store trace].
    split; [| split; [| reflexivity]].
    + split; [exact Hu |].
      split; [intros e He; rewrite He; reflexivity |].
      split.
      { intros Hp Hd. rewrite (login_deactivated p req w u Hu Hp Hd).
        reflexivity. }
      split.
      { intros Hd Hc. rewrite (login_wrong_password p req w u Hu Hd Hc).
        reflexivity. }
      split; [| reflexivity].
      intros Hd Hc. rewrite login_run, Hu, Hc. cbn [fst].
      assert (Hcd : checks_deleted p && deleted u = false).
      { destruct Hd as [-> | ->]; [reflexivity | apply andb_false_r]. }
      rewrite Hcd. exists (role_label p u).
      split; [reflexivity |].
      split; [intros ->; reflexivity |].
      split; [intros ->; reflexivity |].
      split.
      * intros -> [Hr | Hr]; cbn [role_label]; rewrite Hr; reflexivity.
      * intros -> s Hr Hs. cbn [role_label]. rewrite Hr.
        destruct s; [contradiction Hs |]; reflexivity.
    + intros e.
      destruct (fst (login_of p req w)) as [r | e'] eqn:Hl; [discriminate |].
      intros [= <-].
      destruct (login_failure_cases p req w e' Hl) as [-> | [-> _]];
        eexists; reflexivity.
  - rewrite (unified_no_match req w Hm). cbn [fst snd store].
    split; [reflexivity |].
    split; [| reflexivity].
    intros e [= <-]. eexists; reflexivity.
Qed.

(** X1.  A per-role login answers (always with status 200) exactly when the
    first account of its partition with the email has a password hash the
    submitted password verifies against and, for JobSeeker and Employer, is
    not soft-deleted; an Admin account is let in whatever its soft-delete
    flag.  The answer carries the role label of the login, the account's
    profile and a token for the account with the role tag of the login. *)
Theorem login_succeeds_iff (p : Partition) (req : LoginReq) (w : World)
        (r : Response) :
  fst (login_of p req w) = Sent r <->
  exists u,
    by_email p (lg_email req) w = Some u /\
    (p = Admin \/ deleted u = false) /\
    bcrypt_compare (lg_password req) (password u) = true /\
    r = mkResponse 200
          (LoginBody (login_label p u) (toJSON (instance_of u))
                     (generateToken u (login_tag p))).
Proof.
  rewrite login_run. cbn [fst].
  destruct (by_email p (lg_email req) w) as [u |].
  - destruct (checks_deleted p && deleted u) eqn:Hd.
    + split; [discriminate |]. intros (v & [= <-] & Hv & _).
      apply andb_true_iff in Hd. destruct Hd as [Hp Hdel].
      destruct Hv as [-> | Hv]; [discriminate Hp | congruence].
    + destruct (bcrypt_compare (lg_password req) (password u)) eqn:Hc.
      * split.
        -- intros [= <-]. exists u. repeat split; auto.
           apply andb_false_iff in Hd. destruct Hd as [Hp | Hdel]; auto.
           left. destruct p; try discriminate Hp; reflexivity.
        -- intros (v & [= <-] & _ & _ & ->). reflexivity.
      * split; [discriminate |]. intros (v & [= <-] & _ & Hv & _).
        congruence.
  - split; [discriminate |]. intros (v & Hv & _). discriminate Hv.
Qed.

(** *** What a call does to the store *)

Lemma keeps_identity_consume (h : string) : keeps_identity (consume_reset h).
Proof. intros r. repeat split. Qed.

Lemma keeps_identity_issue (tok : string) (t : Z) :
  keeps_identity (issue_reset tok t).
Proof. intros r. repeat split. Qed.

Lemma keeps_identity_replace (h : string) (t : Z) :
  keeps_identity (replace_password h t).
Proof. intros r. repeat split. Qed.

Lemma call_run (c : Call) (w : World) :
  exists evs,
    trace (snd (call c w)) = (trace w ++ evs)%list /\
    ((store (snd (call c w)) = store w /\ writes evs = 0%nat) \/
     (writes evs = 1%nat /\
      ((exists r, fst (call c w) = Sent r /\ status r = 200) \/
       (exists env req e,
          c = RequestPasswordReset env req /\ smtp_send env = Some e /\
          fst (call c w) = Next e)) /\
      exists p pk f,
        keeps_identity f /\
        store (snd (call c w)) =
          set_table p (update_row pk f (table p (store w))) (store w)) \/
     (writes evs = 1%nat /\
      (exists r, fst (call c w) = Sent r /\ status r = 201) /\
      exists p row,
        ~ email_taken (email row) w /\
        store (snd (call c w)) =
          set_table p (table p (store w) ++ [row]) (store w))).
Proof.
  destruct c as [env req | env req | req | req | req | req | who
                 | env who req | env req | env req]; cbn [call].
  - change (registerJobSeeker env req w) with (register_of false env req w).
    destruct (email_taken_dec (rg_email req) w) as [H | H].
    + rewrite (register_duplicate false env req w H).
      eexists. split; [reflexivity |]. left. split; reflexivity.
    + rewrite (register_fresh false env req w H).
      eexists. split; [reflexivity |]. right; right.
      split; [reflexivity |]. split; [eexists; split; reflexivity |].
      do 2 eexists. split; [| reflexivity]. exact H.
  - change (registerEmployer env req w) with (register_of true env req w).
    destruct (email_taken_dec (rg_email req) w) as [H | H].
    + rewrite (register_duplicate true env req w H).
      eexists. split; [reflexivity |]. left. split; reflexivity.
    + rewrite (register_fresh true env req w H).
      eexists. split; [reflexivity |]. right; right.
      split; [reflexivity |]. split; [eexists; split; reflexivity |].
      do 2 eexists. split; [| reflexivity]. exact H.
  - change (loginJobSeeker req w) with (login_of JobSeeker req w).
    rewrite login_run. eexists. split; [reflexivity |].
    left. split; reflexivity.
  - change (loginEmployer req w) with (login_of Employer req w).
    rewrite login_run. eexists. split; [reflexivity |].
    left. split; reflexivity.
  - change (loginAdmin req w) with (login_of Admin req w).
    rewrite login_run. eexists. split; [reflexivity |].
    left. split; reflexivity.
  - destruct (matched_partition (lg_email req) w) as [[p u] |] eqn:Hm.
    + destruct (unified_match req w p u Hm) as [_ ->].
      eexists. split; [reflexivity |]. left.
      split; [reflexivity | destruct p; reflexivity].
    + rewrite (unified_no_match req w Hm).
      eexists. split; [reflexivity |]. left. split; reflexivity.
  - rewrite getCurrentUser_run.
    destruct (partition_of_role (user_role who)) as [p |].
    + eexists. split; [reflexivity |]. left. split; reflexivity.
    + exists []. split; [symmetry; apply app_nil_r |].
      left. split; reflexivity.
  - rewrite changePassword_run.
    destruct (partition_of_role (user_role who)) as [p |].
    + destruct (by_pk p (user_id who) w) as [u |].
      * destruct (bcrypt_compare _ _).
        -- eexists. split; [reflexivity |]. right; left.
           split; [reflexivity |].
           split; [left; eexists; split; reflexivity |].
           do 3 eexists. split; [| reflexivity].
           apply keeps_identity_replace.
        -- eexists. split; [reflexivity |]. left. split; reflexivity.
      * eexists. split; [reflexivity |]. left. split; reflexivity.
    + exists []. split; [symmetry; apply app_nil_r |].
      left. split; reflexivity.
  - destruct (by_email (reset_model (rr_role req)) (rr_email req) w)
      as [u |] eqn:Hf.
    + rewrite (requestPasswordReset_found env req w u Hf).
      eexists. split; [reflexivity |]. right; left.
      split; [destruct (smtp_verify env); reflexivity |].
      split.
      * destruct (smtp_send env) as [e |] eqn:Hs.
        -- right. exists env, req, e. repeat split. exact Hs.
        -- left. eexists. split; reflexivity.
      * do 3 eexists. split; [| reflexivity]. apply keeps_identity_issue.
    + rewrite (requestPasswordReset_not_found env req w Hf).
      eexists. split; [reflexivity |]. left. split; reflexivity.
  - destruct (find (reset_matches (rs_token req) (now env))
                   (table (reset_model (rs_role req)) (store w)))
      as [u |] eqn:Hf.
    + rewrite (resetPassword_match env req w u Hf).
      eexists. split; [reflexivity |]. right; left.
      split; [reflexivity |].
      split; [left; eexists; split; reflexivity |].
      do 3 eexists. split; [| reflexivity]. apply keeps_identity_consume.
    + rewrite (resetPassword_no_match env req w Hf).
      eexists. split; [reflexivity |]. left. split; reflexivity.
Qed.

Lemma call_effect (c : Call) (w : World) : Effect w (snd (call c w)).
Proof.
  destruct (call_run c w) as (evs & _ & [[H _] | [H | H]]).
  - apply NoWrite. exact H.
  - destruct H as (_ & _ & p & pk & f & Hf & Hs).
    exact (OneUpdate w _ p pk f Hf Hs).
  - destruct H as (_ & _ & p & row & Hn & Hs).
    exact (OneInsert w _ p row Hn Hs).
Qed.

(** X2.  A call that ends in one of the controller's own errors
    ([NotFoundError], [BadRequestError], [UnauthorizedError]) has written
    nothing, unless that error is the one the mailer refused a reset
    request's message with, after the token was stored.  A call answered
    with a status other than 200 and 201 has written nothing either. *)
Theorem failed_call_writes_nothing (c : Call) (w : World) :
  (forall e,
     fst (call c w) = Next e ->
     controller_error e = true ->
     (forall env req, c = RequestPasswordReset env req ->
                      smtp_send env <> Some e) ->
     store (snd (call c w)) = store w)
  /\
  (forall r,
     fst (call c w) = Sent r -> status r <> 200 -> status r <> 201 ->
     store (snd (call c w)) = store w).
Proof.
  destruct (call_run c w) as (evs & _ & [[H _] | [H | H]]).
  - split; [intros e _ _ _; exact H | intros r _ _ _; exact H].
  - destruct H as (_ & [(r & Hr & Hst) | (env & req & e & Hc & Hs & He)] & _).
    + split.
      * intros e He. rewrite Hr in He. discriminate He.
      * intros r' Hr' Hn _. rewrite Hr in Hr'. injection Hr' as <-.
        contradiction (Hn Hst).
    + split.
      * intros e' He' _ Hmail. rewrite He in He'. injection He' as <-.
        contradiction (Hmail env req Hc Hs).
      * intros r Hr. rewrite He in Hr. discriminate Hr.
  - destruct H as (_ & (r & Hr & Hst) & _).
    split.
    + intros e He. rewrite Hr in He. discriminate He.
    + intros r' Hr' _ Hn. rewrite Hr in Hr'. injection Hr' as <-.
      contradiction (Hn Hst).
Qed.

(** X3.  Every call makes at most one insert or update, and when it makes
    none the store is as before.  The logins, the unified login and the
    current-user lookup never make one. *)
Theorem call_writes_at_most_once (c : Call) (w : World) :
  exists evs,
    trace (snd (call c w)) = (trace w ++ evs)%list /\
    (writes evs <= 1)%nat /\
    (writes evs = 0%nat -> store (snd (call c w)) = store w) /\
    (match c with
     | LoginJobSeeker _ | LoginEmployer _ | LoginAdmin _ | UnifiedLogin _
     | GetCurrentUser _ => writes evs = 0%nat
     | _ => True
     end).
Proof.
  destruct (call_run c w) as (evs & Ht & H).
  exists evs. split; [exact Ht |].
  destruct H as [[Hs Hw] | [H | H]].
  - rewrite Hw. split; [lia |]. split; [intros _; exact Hs |].
    destruct c; exact I || reflexivity.
  - destruct H as (Hw & Hout & _). rewrite Hw.
    split; [lia |]. split; [discriminate |].
    destruct c; try exact I; exfalso; revert Ht Hw; cbn [call].
    + change (loginJobSeeker req w) with (login_of JobSeeker req w).
      rewrite login_run. cbn [snd trace]. intros Ht.
      apply app_inv_head in Ht. subst evs. discriminate.
    + change (loginEmployer req w) with (login_of Employer req w).
      rewrite login_run. cbn [snd trace]. intros Ht.
      apply app_inv_head in Ht. subst evs. discriminate.
    + change (loginAdmin req w) with (login_of Admin req w).
      rewrite login_run. cbn [snd trace]. intros Ht.
      apply app_inv_head in Ht. subst evs. discriminate.
    + destruct (matched_partition (lg_email req) w) as [[p u] |] eqn:Hm.
      * destruct (unified_match req w p u Hm) as [_ ->].
        cbn [snd trace]. intros Ht. apply app_inv_head in Ht. subst evs.
        destruct p; discriminate.
      * rewrite (unified_no_match req w Hm).
        cbn [snd trace]. intros Ht. apply app_inv_head in Ht. subst evs.
        discriminate.
    + rewrite getCurrentUser_run.
      destruct (partition_of_role (user_role who)); cbn [snd trace];
        intros Ht.
      * apply app_inv_head in Ht. subst evs. discriminate.
      * rewrite <- (app_nil_r (trace w)) in Ht at 1.
        apply app_inv_head in Ht. subst evs. discriminate.
  - destruct H as (Hw & (r & Hr & Hst) & _). rewrite Hw.
    split; [lia |]. split; [discriminate |].
    destruct c; try exact I; exfalso; revert Hr Hst; cbn [call].
    + change (loginJobSeeker req w) with (login_of JobSeeker req w).
      rewrite login_run. cbn [fst].
      destruct (by_email _ _ _) as [u |]; [| discriminate].
      destruct (_ && _); [discriminate |].
      destruct (bcrypt_compare _ _); [| discriminate].
      intros [= <-]. discriminate.
    + change (loginEmployer req w) with (login_of Employer req w).
      rewrite login_run. cbn [fst].
      destruct (by_email _ _ _) as [u |]; [| discriminate].
      destruct (_ && _); [discriminate |].
      destruct (bcrypt_compare _ _); [| discriminate].
      intros [= <-]. discriminate.
    + change (loginAdmin req w) with (login_of Admin req w).
      rewrite login_run. cbn [fst].
      destruct (by_email _ _ _) as [u |]; [| discriminate].
      destruct (_ && _); [discriminate |].
      destruct (bcrypt_compare _ _); [| discriminate].
      intros [= <-]. discriminate.
    + destruct (matched_partition (lg_email req) w) as [[p u] |] eqn:Hm.
      * destruct (unified_match req w p u Hm) as [_ ->]. cbn [fst].
        destruct (fst (login_of p req w)); [| discriminate].
        intros [= <-]. discriminate.
      * rewrite (unified_no_match req w Hm). discriminate.
    + rewrite getCurrentUser_run.
      destruct (partition_of_role (user_role who)); [| discriminate].
      cbn [fst]. destruct (by_pk _ _ _); [| discriminate].
      intros [= <-]. discriminate.
Qed.

(** *** Uniqueness of emails *)

Lemma email_taken_all_emails (e : string) (w : World) :
  email_taken e w <-> In e (all_emails (store w)).
Proof.
  unfold email_taken, all_emails. rewrite !in_app_iff, !in_map_iff. split.
  - intros (p & u & Hin & He). destruct p; cbn [table] in Hin.
    + left. exists u. auto.
    + right; left. exists u. auto.
    + right; right. exists u. auto.
  - intros [(u & He & Hin) | [(u & He & Hin) | (u & He & Hin)]].
    + exists JobSeeker, u. auto.
    + exists Employer, u. auto.
    + exists Admin, u. auto.
Qed.

Lemma map_email_update_row (pk : Z) (f : Account -> Account)
      (t : list Account) :
  keeps_identity f -> map email (update_row pk f t) = map email t.
Proof.
  intros Hf. unfold update_row. rewrite map_map. apply map_ext.
  intros r. destruct (id r =? pk); [apply (Hf r) | reflexivity].
Qed.

Lemma NoDup_insert {A : Type} (a : A) (l1 l2 : list A) :
  NoDup (l1 ++ l2) -> ~ In a (l1 ++ l2) -> NoDup (l1 ++ a :: l2).
Proof.
  induction l1 as [| b l1 IH]; cbn; intros Hn Hi.
  - constructor; assumption.
  - inversion Hn as [| x l Hb Hn']; subst. constructor.
    + rewrite in_app_iff in *. cbn. intros [H | [H | H]]; auto.
    + apply IH; [exact Hn' |]. intros H. apply Hi. right. exact H.
Qed.

Lemma effect_keeps_emails_unique (w w' : World) :
  Effect w w' ->
  NoDup (all_emails (store w)) -> NoDup (all_emails (store w')).
Proof.
  intros [H | p pk f Hf H | p row Hn H] Hu; rewrite H.
  - exact Hu.
  - unfold all_emails in *.
    destruct p; cbn [set_table table jobSeekers employers admins];
      rewrite (map_email_update_row pk f _ Hf); exact Hu.
  - rewrite email_taken_all_emails in Hn. unfold all_emails in *.
    destruct p; cbn [set_table table jobSeekers employers admins];
      rewrite map_app; cbn [map].
    + rewrite <- app_assoc. cbn [app]. apply NoDup_insert; assumption.
    + rewrite <- app_assoc. cbn [app]. rewrite app_assoc.
      apply NoDup_insert; rewrite <- app_assoc; assumption.
    + rewrite !app_assoc. apply NoDup_insert; rewrite app_nil_r.
      * rewrite <- app_assoc. exact Hu.
      * rewrite <- app_assoc. exact Hn.
Qed.

(** X4.  If no two accounts of the store, of the same or of different
    partitions, have the same email, the same holds after any sequence of
    calls, whatever they are and however they end. *)
Theorem emails_stay_unique (cs : list Call) (w : World) :
  NoDup (all_emails (store w)) ->
  NoDup (all_emails (store (calls cs w))).
Proof.
  revert w. induction cs as [| c cs IH]; intros w Hu; cbn [calls].
  - exact Hu.
  - apply IH. apply (effect_keeps_emails_unique w); [| exact Hu].
    apply call_effect.
Qed.

(** *** Tokens and the role dispatch *)

Lemma by_pk_in (p : Partition) (u : Account) (w : World) :
  In u (table p (store w)) ->
  exists v, by_pk p (id u) w = Some v /\ id v = id u.
Proof.
  intros Hin. unfold by_pk.
  destruct (find _ _) as [v |] eqn:Hf.
  - exists v. split; [reflexivity |].
    apply find_some in Hf. apply Z.eqb_eq. exact (proj2 Hf).
  - pose proof (find_none _ _ Hf u Hin) as Hn. cbn in Hn.
    rewrite Z.eqb_refl in Hn. discriminate Hn.
Qed.

Lemma by_email_in (p : Partition) (e : string) (w : World) (u : Account) :
  by_email p e w = Some u -> In u (table p (store w)) /\ email u = e.
Proof.
  intros H. apply find_some in H. destruct H as [Hin He].
  apply String.eqb_eq in He. auto.
Qed.

Lemma me_with_recognised_tag (p : Partition) (tag : string) (u : Account)
      (w : World) :
  partition_of_role tag = Some p ->
  In u (table p (store w)) ->
  exists prof,
    fst (getCurrentUser (mkIdentity (id u) tag) w) =
      Sent (mkResponse 200 (UserBody prof)) /\
    p_id prof = id u /\ p_password prof = None.
Proof.
  intros Hp Hin. rewrite getCurrentUser_run. cbn [user_role user_id].
  rewrite Hp. destruct (by_pk_in p u w Hin) as (v & -> & Hv).
  eexists. split; [reflexivity |].
  split; [destruct p; exact Hv | reflexivity].
Qed.

Lemma lower_ascii_not_upper_S (c : ascii) : lower_ascii c <> "S"%char.
Proof.
  destruct c as [[] [] [] [] [] [] [] []]; vm_compute; discriminate.
Qed.

Lemma lower_ascii_letters_not_jobSeeker (s : string) :
  lower_ascii_letters s <> "jobSeeker".
Proof.
  destruct s as [| c0 [| c1 [| c2 [| c3 s]]]]; cbn [lower_ascii_letters];
    try discriminate.
  intros H. injection H as _ _ _ H _.
  exact (lower_ascii_not_upper_S c3 H).
Qed.

Lemma toLowerCase_not_jobSeeker (s : string) : toLowerCase s <> "jobSeeker".
Proof.
  unfold toLowerCase. destruct (is_ascii_string s);
    apply lower_ascii_letters_not_jobSeeker.
Qed.

(** X5.  A token issued by [loginEmployer], by [loginAdmin] or by
    [registerEmployer] is accepted by [getCurrentUser] on the store the call
    leaves: the answer is 200 with a profile that has the id of the returned
    user and no password. *)
Theorem issued_token_opens_profile :
  (forall p req w r w',
     p <> JobSeeker ->
     login_of p req w = (Sent r, w') ->
     exists user tok prof,
       credentials_of (body r) = Some (user, tok) /\
       tk_role tok = login_tag p /\
       fst (getCurrentUser (identity_of tok) w') =
         Sent (mkResponse 200 (UserBody prof)) /\
       p_id prof = p_id user /\ p_password prof = None) /\
  (forall env req w r w',
     registerEmployer env req w = (Sent r, w') ->
     exists user tok prof,
       credentials_of (body r) = Some (user, tok) /\
       tk_role tok = "employer" /\
       fst (getCurrentUser (identity_of tok) w') =
         Sent (mkResponse 200 (UserBody prof)) /\
       p_id prof = p_id user /\ p_password prof = None).
Proof.
  split.
  - intros p req w r w' Hp. rewrite login_run.
    destruct (by_email p (lg_email req) w) as [u |] eqn:Hu; [| discriminate].
    destruct (_ && _); [discriminate |].
    destruct (bcrypt_compare _ _); [| discriminate].
    intros [= <- <-]. apply by_email_in in Hu. destruct Hu as [Hin _].
    assert (Htag : partition_of_role (login_tag p) = Some p)
      by (destruct p; [contradiction Hp |..]; reflexivity).
    destruct (me_with_recognised_tag p (login_tag p) u
                (mkWorld (store w) (trace w ++ [QFindOne p])) Htag Hin)
      as (prof & Hg & Hid & Hpw).
    do 3 eexists. split; [reflexivity |]. split; [reflexivity |].
    split; [exact Hg |]. split; [exact Hid | exact Hpw].
  - intros env req w r w' Hs.
    change (registerEmployer env req w) with (register_of true env req w) in Hs.
    destruct (email_taken_dec (rg_email req) w) as [Ht | Hn].
    { rewrite (register_duplicate true env req w Ht) in Hs. discriminate Hs. }
    rewrite (register_fresh true env req w Hn) in Hs.
    injection Hs as <- <-.
    match goal with
    | |- context [QInsert _ ?row] =>
        destruct (me_with_recognised_tag Employer "employer" row
                    (mkWorld (set_table Employer
                                (table Employer (store w) ++ [row]) (store w))
                             (trace w ++ probes_until Admin
                                ++ [QInsert Employer row]))
                    eq_refl)
          as (prof & Hg & Hid & Hpw)
    end.
    { cbn [store]. rewrite set_table_same. apply in_or_app. right.
      left. reflexivity. }
    do 3 eexists. split; [reflexivity |]. split; [reflexivity |].
    split; [exact Hg |]. split; [exact Hid | exact Hpw].
Qed.

(** X6.  A token issued by [unifiedLogin] is never dispatched to the
    JobSeeker partition by the role [switch].  When the login matched an
    Employer account, or an Admin account whose role label in lower case is
    "admin" (no label, an empty one, "Admin", ...), [getCurrentUser] accepts
    the token on the same store: 200 with a profile of the account's id. *)
Theorem unifiedLogin_token_dispatch (req : LoginReq) (w w' : World)
        (r : Response) :
  unifiedLogin req w = (Sent r, w') ->
  exists p u lbl user tok,
    matched_partition (lg_email req) w = Some (p, u) /\
    body r = LoginBody (Some lbl) user tok /\
    tk_id tok = id u /\
    partition_of_role (tk_role tok) <> Some JobSeeker /\
    (p = Employer \/ (p = Admin /\ toLowerCase (role_label p u) = "admin") ->
     exists prof,
       fst (getCurrentUser (identity_of tok) w') =
         Sent (mkResponse 200 (UserBody prof)) /\
       p_id prof = id u /\ p_password prof = None).
Proof.
  intros Hs.
  destruct (matched_partition (lg_email req) w) as [[p u] |] eqn:Hm.
  2: { rewrite (unified_no_match req w Hm) in Hs. discriminate Hs. }
  destruct (unified_match req w p u Hm) as [Hu Heq].
  rewrite Heq in Hs.
  destruct (fst (login_of p req w)); [| discriminate Hs].
  injection Hs as <- <-.
  exists p, u. do 3 eexists.
  split; [reflexivity |]. split; [reflexivity |]. split; [reflexivity |].
  cbn [generateToken tk_role identity_of tk_id].
  split.
  - unfold partition_of_role.
    destruct (_ =? "admin")%string; [discriminate |].
    destruct (_ =? "employer")%string; [discriminate |].
    destruct (String.eqb_spec (toLowerCase (role_label p u)) "jobSeeker")
      as [E | _]; [| discriminate].
    contradiction (toLowerCase_not_jobSeeker _ E).
  - apply by_email_in in Hu. destruct Hu as [Hin _].
    intros [-> | [-> Hl]].
    + apply (me_with_recognised_tag Employer "employer" u
               (mkWorld (store w) (trace w ++ probes_until Employer)) eq_refl).
      exact Hin.
    + rewrite Hl.
      apply (me_with_recognised_tag Admin "admin" u
               (mkWorld (store w) (trace w ++ probes_until Admin)) eq_refl).
      exact Hin.
Qed.

(** *** The reset flow, end to end *)

Lemma find_update_row (g : Account -> bool) (pk : Z) (f : Account -> Account)
      (t : list Account) :
  (forall r, g (f r) = g r) ->
  find g (update_row pk f t) =
  option_map (fun r => if id r =? pk then f r else r) (find g t).
Proof.
  intros Hg. induction t as [| a t IH]; [reflexivity |].
  cbn [update_row map find]. fold (update_row pk f t).
  destruct (id a =? pk) eqn:E; [rewrite Hg |];
    (destruct (g a); [cbn; rewrite E; reflexivity | exact IH]).
Qed.

Lemma update_row_twice (pk : Z) (f g : Account -> Account) (t : list Account) :
  (forall r, id (g r) = id r) ->
  update_row pk f (update_row pk g t) = update_row pk (fun r => f (g r)) t.
Proof.
  intros Hg. unfold update_row. rewrite map_map. apply map_ext.
  intros r. destruct (id r =? pk) eqn:E; [rewrite Hg, E | rewrite E];
    reflexivity.
Qed.

Lemma in_update_row_hit (pk : Z) (f : Account -> Account) (t : list Account)
      (u : Account) :
  In u t -> id u = pk -> In (f u) (update_row pk f t).
Proof.
  intros Hin Hid. unfold update_row. apply in_map_iff. exists u.
  split; [| exact Hin]. rewrite Hid, Z.eqb_refl. reflexivity.
Qed.

Lemma reset_matches_issued (tok tok' : string) (t t' : Z) (r : Account) :
  reset_matches tok' t' (issue_reset tok t r) =
  String.eqb tok tok' && (t' <? t + 900000).
Proof. reflexivity. Qed.

Lemma reset_on_issued_token (env : Env) (role tok np : string) (t1 : Z)
      (w w1 : World) (u : Account) :
  In u (table (reset_model role) (store w)) ->
  table (reset_model role) (store w1) =
    update_row (id u) (issue_reset tok t1) (table (reset_model role) (store w)) ->
  now env < t1 + 900000 ->
  fst (resetPassword env (mkResetBody tok role np) w1) = Sent reset_ok.
Proof.
  intros Hin Ht Hnow.
  assert (Hp : reset_pending tok (now env) (reset_model role) w1).
  { exists (issue_reset tok t1 u). rewrite Ht.
    split; [apply in_update_row_hit; [exact Hin | reflexivity] |].
    split; [reflexivity |]. eexists. split; [reflexivity |]. lia. }
  apply reset_pending_find in Hp. destruct Hp as (v & Hv).
  rewrite (resetPassword_match env (mkResetBody tok role np) w1 v Hv).
  reflexivity.
Qed.

Lemma reset_on_dead_token (env : Env) (role tok tok' np : string) (t1 : Z)
      (w w1 : World) (u : Account) :
  table (reset_model role) (store w1) =
    update_row (id u) (issue_reset tok t1) (table (reset_model role) (store w)) ->
  (forall r, In r (table (reset_model role) (store w)) -> id r <> id u ->
             reset_token r <> Some tok') ->
  tok <> tok' \/ t1 + 900000 <= now env ->
  resetPassword env (mkResetBody tok' role np) w1 =
  (Sent reset_refused,
   mkWorld (store w1) (trace w1 ++ [QFindOne (reset_model role)])).
Proof.
  intros Ht Hfresh Hdead.
  apply (resetPassword_no_match env (mkResetBody tok' role np) w1).
  cbn [rs_token rs_role]. rewrite Ht. apply find_none_iff.
  intros r' Hr'. apply in_update_row in Hr'.
  destruct Hr' as (r & Hr & [[_ ->] | [Hne ->]]).
  - rewrite reset_matches_issued. destruct Hdead as [Hd | Hd].
    + apply String.eqb_neq in Hd. rewrite Hd. reflexivity.
    + apply andb_false_iff. right. apply Z.ltb_ge. exact Hd.
  - destruct (reset_matches tok' (now env) r) eqn:Hm; [| reflexivity].
    apply reset_matches_true in Hm. destruct Hm as [Hk _].
    contradiction (Hfresh r Hr Hne Hk).
Qed.

(** X7.  After a reset request for an existing account, whether or not the
    mailer accepted the message: the message the handler hands to the mailer
    goes to the requested address and its link carries the stored token and
    the requested role; a reset with that token and role made less than 15
    minutes after the request succeeds; and when no other account of the
    partition held the same token, a reset made 15 minutes after the request
    or later is refused and changes nothing, while one made in time gives
    the requesting account the hash of the new password and clears its
    token. *)
Theorem reset_request_then_reset (env1 env2 : Env) (req : ResetRequestBody)
        (np : string) (w : World) (u : Account) :
  by_email (reset_model (rr_role req)) (rr_email req) w = Some u ->
  let p := reset_model (rr_role req) in
  let tok := toHex (randomBytes env1 32) in
  let w1 := snd (requestPasswordReset env1 req w) in
  let out := resetPassword env2 (mkResetBody tok (rr_role req) np) w1 in
  In (SendMail (rr_email req) (reset_link tok (rr_role req))) (trace w1) /\
  (now env2 < now env1 + 900000 -> fst out = Sent reset_ok) /\
  ((forall r, In r (table p (store w)) -> id r <> id u ->
              reset_token r <> Some tok) ->
   (now env1 + 900000 <= now env2 ->
    fst out = Sent reset_refused /\ store (snd out) = store w1) /\
   (now env2 < now env1 + 900000 ->
    forall r', In r' (table p (store (snd out))) -> id r' = id u ->
               password r' = bcrypt_hash np (genSalt env2) /\
               reset_token r' = None /\ token_expiry r' = None)).
Proof.
  intros Hu p tok w1 out.
  pose proof (requestPasswordReset_found env1 req w u Hu) as Hreq.
  cbv zeta in Hreq. fold p tok in Hreq.
  assert (Hw1 : w1 = snd (requestPasswordReset env1 req w)) by reflexivity.
  rewrite Hreq in Hw1. cbn [snd] in Hw1.
  assert (Ht : table p (store w1) =
               update_row (id u) (issue_reset tok (now env1))
                          (table p (store w))).
  { rewrite Hw1. cbn [store]. apply set_table_same. }
  destruct (by_email_in _ _ _ _ Hu) as [Hin _]. fold p in Hin.
  split; [| split].
  - rewrite Hw1. cbn [trace]. apply in_or_app. right.
    right; right; right; left. reflexivity.
  - intros Hnow. exact (reset_on_issued_token env2 (rr_role req) tok np
                          (now env1) w w1 u Hin Ht Hnow).
  - intros Hfresh. split.
    + intros Hlate. unfold out.
      rewrite (reset_on_dead_token env2 (rr_role req) tok tok np (now env1)
                 w w1 u Ht Hfresh (or_intror Hlate)).
      split; reflexivity.
    + intros Hnow r' Hr' Hid.
      pose proof (reset_on_issued_token env2 (rr_role req) tok np
                    (now env1) w w1 u Hin Ht Hnow) as Hok.
      destruct (find (reset_matches tok (now env2)) (table p (store w1)))
        as [v |] eqn:Hv.
      2: { unfold out in Hok.
           rewrite (resetPassword_no_match env2 (mkResetBody tok (rr_role req) np)
                      w1 Hv) in Hok. discriminate Hok. }
      assert (Hvid : id v = id u).
      { pose proof (find_some _ _ Hv) as [Hvin Hvm].
        rewrite Ht in Hvin. apply in_update_row in Hvin.
        destruct Hvin as (r & Hr & [[Hrid ->] | [Hne ->]]);
          [exact Hrid |].
        apply reset_matches_true in Hvm. destruct Hvm as [Hk _].
        contradiction (Hfresh r Hr Hne Hk). }
      unfold out in Hr'.
      rewrite (resetPassword_match env2 (mkResetBody tok (rr_role req) np)
                 w1 v Hv) in Hr'.
      cbn [snd store rs_role rs_newPassword] in Hr'. fold p in Hr'.
      rewrite set_table_same, Hvid in Hr'.
      apply in_update_row in Hr'.
      destruct Hr' as (r & _ & [[_ ->] | [Hne ->]]).
      * repeat split.
      * contradiction (Hne Hid).
Qed.

Lemma by_email_after_update (p : Partition) (e : string) (pk : Z)
      (f : Account -> Account) (w w' : World) :
  keeps_identity f ->
  table p (store w') = update_row pk f (table p (store w)) ->
  by_email p e w' =
  option_map (fun r => if id r =? pk then f r else r) (by_email p e w).
Proof.
  intros Hf Ht. unfold by_email. rewrite Ht. apply find_update_row.
  intros r. cbn. destruct (Hf r) as (_ & -> & _). reflexivity.
Qed.

(** X8.  A second reset request for the same account replaces the token of
    the first: the store is as if only the second request had been made.
    When the two tokens differ and no other account of the partition held
    the first one, a reset with the first token is refused from then on,
    while the second token is accepted for 15 minutes. *)
Theorem second_reset_request_replaces_token (env1 env2 env3 : Env)
        (req : ResetRequestBody) (np : string) (w : World) (u : Account) :
  by_email (reset_model (rr_role req)) (rr_email req) w = Some u ->
  let p := reset_model (rr_role req) in
  let tok1 := toHex (randomBytes env1 32) in
  let tok2 := toHex (randomBytes env2 32) in
  let w2 := snd (requestPasswordReset env2 req
                   (snd (requestPasswordReset env1 req w))) in
  store w2 = store (snd (requestPasswordReset env2 req w)) /\
  (now env3 < now env2 + 900000 ->
   fst (resetPassword env3 (mkResetBody tok2 (rr_role req) np) w2) =
     Sent reset_ok) /\
  (tok1 <> tok2 ->
   (forall r, In r (table p (store w)) -> id r <> id u ->
              reset_token r <> Some tok1) ->
   fst (resetPassword env3 (mkResetBody tok1 (rr_role req) np) w2) =
     Sent reset_refused).
Proof.
  intros Hu p tok1 tok2 w2.
  pose proof (requestPasswordReset_found env1 req w u Hu) as H1.
  cbv zeta in H1. fold p tok1 in H1.
  set (w1 := snd (requestPasswordReset env1 req w)) in *.
  assert (Ht1 : table p (store w1) =
                update_row (id u) (issue_reset tok1 (now env1))
                           (table p (store w))).
  { unfold w1. rewrite H1. cbn [snd store]. apply set_table_same. }
  assert (Hu1 : by_email p (rr_email req) w1 =
                Some (issue_reset tok1 (now env1) u)).
  { rewrite (by_email_after_update p _ (id u) (issue_reset tok1 (now env1))
               w w1 (keeps_identity_issue _ _) Ht1).
    fold p in Hu. rewrite Hu. cbn. rewrite Z.eqb_refl. reflexivity. }
  pose proof (requestPasswordReset_found env2 req w1 _ Hu1) as H2.
  cbv zeta in H2. fold p tok2 in H2. cbn [issue_reset set_token_expiry
    set_reset_token id] in H2.
  pose proof (requestPasswordReset_found env2 req w u Hu) as H2'.
  cbv zeta in H2'. fold p tok2 in H2'.
  assert (Hs1 : store w1 =
                set_table p (update_row (id u) (issue_reset tok1 (now env1))
                               (table p (store w))) (store w)).
  { unfold w1. rewrite H1. reflexivity. }
  assert (Ht2 : table p (store w2) =
                update_row (id u) (issue_reset tok2 (now env2))
                           (table p (store w))).
  { unfold w2. fold w1. rewrite H2. cbn [snd store].
    rewrite set_table_same, Ht1.
    rewrite update_row_twice by reflexivity. reflexivity. }
  destruct (by_email_in _ _ _ _ Hu) as [Hin _]. fold p in Hin.
  split; [| split].
  - unfold w2. fold w1. rewrite H2, H2'. cbn [snd store].
    rewrite Ht1, Hs1, update_row_twice by reflexivity.
    destruct p; reflexivity.
  - intros Hnow.
    exact (reset_on_issued_token env3 (rr_role req) tok2 np (now env2)
             w w2 u Hin Ht2 Hnow).
  - intros Hne Hfresh.
    rewrite (reset_on_dead_token env3 (rr_role req) tok2 tok1 np (now env2)
               w w2 u Ht2 Hfresh (or_introl (not_eq_sym Hne))).
    reflexivity.
Qed.

(** X9.  A reset request answers 404 "Email not found" exactly when the
    selected partition has no account with the email; it then reads only
    that partition, writes nothing and hands nothing to the mailer.  An
    email that only an Admin account has is answered so for every role. *)
Theorem reset_request_unknown_email (env : Env) (req : ResetRequestBody)
        (w : World) :
  let p := reset_model (rr_role req) in
  ((exists b, fst (requestPasswordReset env req w) = Sent (mkResponse 404 b))
   <-> by_email p (rr_email req) w = None) /\
  (by_email p (rr_email req) w = None ->
   requestPasswordReset env req w =
   (Sent (mkResponse 404 (MessageBody false "Email not found")),
    mkWorld (store w) (trace w ++ [QFindOne p]))) /\
  (by_email JobSeeker (rr_email req) w = None ->
   by_email Employer (rr_email req) w = None ->
   fst (requestPasswordReset env req w) =
   Sent (mkResponse 404 (MessageBody false "Email not found"))).
Proof.
  intros p. split; [| split].
  - destruct (by_email p (rr_email req) w) as [u |] eqn:Hu.
    + rewrite (requestPasswordReset_found env req w u Hu). cbn [fst].
      split; [| discriminate].
      intros (b & Hb). destruct (smtp_send env); discriminate Hb.
    + rewrite (requestPasswordReset_not_found env req w Hu).
      split; [reflexivity |]. intros _. eexists. reflexivity.
  - apply requestPasswordReset_not_found.
  - intros Hj He.
    rewrite requestPasswordReset_not_found; [reflexivity |].
    unfold reset_model. destruct (rr_role req =? "employer")%string;
      assumption.
Qed.

(** *** Logging in after a write *)

Lemma login_after_update (p : Partition) (pk : Z) (f : Account -> Account)
      (w w' : World) (u : Account) (pw : string) :
  keeps_identity f ->
  table p (store w') = update_row pk f (table p (store w)) ->
  by_email p (email u) w = Some u ->
  id u = pk ->
  fst (login_of p (mkLoginReq (email u) pw) w') =
  if checks_deleted p && deleted u
  then Next (UnauthorizedError "Account deactivated")
  else if bcrypt_compare pw (password (f u))
  then Sent (mkResponse 200
               (LoginBody (login_label p (f u)) (toJSON (instance_of (f u)))
                          (generateToken (f u) (login_tag p))))
  else Next (UnauthorizedError "Invalid credentials").
Proof.
  intros Hf Ht Hu Hid. rewrite login_run. cbn [fst lg_email lg_password].
  rewrite (by_email_after_update p (email u) pk f w w' Hf Ht), Hu.
  cbn [option_map]. rewrite Hid, Z.eqb_refl.
  destruct (Hf u) as (_ & _ & ->). reflexivity.
Qed.

Lemma login_verdict_iff (p : Partition) (u : Account) (b : bool)
      (o : Outcome) (r0 : Response) :
  o = (if checks_deleted p && deleted u
       then Next (UnauthorizedError "Account deactivated")
       else if b then Sent r0
       else Next (UnauthorizedError "Invalid credentials")) ->
  ((exists r, o = Sent r) <-> (p = Admin \/ deleted u = false) /\ b = true) /\
  ((p = Admin \/ deleted u = false) -> b = false ->
   o = Next (UnauthorizedError "Invalid credentials")) /\
  (forall r, o = Sent r -> r = r0).
Proof.
  intros ->.
  destruct p, (deleted u), b; cbn;
    (split; [split; [intros (r & Hr); try discriminate Hr; auto
                    | intros ([E | E] & E'); try discriminate;
                      eexists; reflexivity]
            | split; [intros [E | E] E'; try discriminate; reflexivity
                     | intros r Hr; congruence]]).
Qed.

(** X10.  After a successful password change of an account that its email
    finds, the login of its partition with that email is decided by the new
    hash alone: it succeeds exactly for the passwords that verify against
    [bcrypt.hash] of the new password (and an account that is not
    soft-deleted, Admin apart), and any other password, the old one
    included, is refused with "Invalid credentials". *)
Theorem login_after_changePassword (env : Env) (who : Identity)
        (req : ChangeBody) (w : World) (p : Partition) (u : Account)
        (pw : string) :
  partition_of_role (user_role who) = Some p ->
  by_pk p (user_id who) w = Some u ->
  bcrypt_compare (currentPassword req) (password u) = true ->
  by_email p (email u) w = Some u ->
  let w' := snd (changePassword env who req w) in
  let h := bcrypt_hash (newPassword req) (genSalt env) in
  let o := fst (login_of p (mkLoginReq (email u) pw) w') in
  ((exists r, o = Sent r) <->
   (p = Admin \/ deleted u = false) /\ bcrypt_compare pw h = true) /\
  ((p = Admin \/ deleted u = false) -> bcrypt_compare pw h = false ->
   o = Next (UnauthorizedError "Invalid credentials")) /\
  (forall r, o = Sent r ->
             exists lbl user tok,
               body r = LoginBody lbl user tok /\ p_id user = id u /\
               tk_id tok = id u).
Proof.
  intros Hp Hpk Hc Hu w' h o.
  assert (Ht : table p (store w') =
               update_row (id u) (replace_password h (now env))
                          (table p (store w))).
  { unfold w'. rewrite changePassword_run, Hp, Hpk, Hc. cbn [snd store].
    apply set_table_same. }
  pose proof (login_after_update p (id u) _ w w' u pw
                (keeps_identity_replace h (now env)) Ht Hu eq_refl) as Hl.
  fold o in Hl.
  destruct (login_verdict_iff p u _ o _ Hl) as (H1 & H2 & H3).
  split; [exact H1 |]. split; [exact H2 |].
  intros r Hr. rewrite (H3 r Hr). do 3 eexists.
  split; [reflexivity |]. split; reflexivity.
Qed.

(** X11.  After a successful reset of an account that its email finds, the
    login of the partition with that email succeeds exactly for the
    passwords that verify against [bcrypt.hash] of the new password,
    provided the account is not soft-deleted; any other password is refused
    with "Invalid credentials". *)
Theorem login_after_resetPassword (env : Env) (req : ResetBody) (w : World)
        (u : Account) (pw : string) :
  let p := reset_model (rs_role req) in
  find (reset_matches (rs_token req) (now env)) (table p (store w)) = Some u ->
  by_email p (email u) w = Some u ->
  let w' := snd (resetPassword env req w) in
  let h := bcrypt_hash (rs_newPassword req) (genSalt env) in
  let o := fst (login_of p (mkLoginReq (email u) pw) w') in
  ((exists r, o = Sent r) <->
   deleted u = false /\ bcrypt_compare pw h = true) /\
  (deleted u = false -> bcrypt_compare pw h = false ->
   o = Next (UnauthorizedError "Invalid credentials")) /\
  (deleted u = true -> o = Next (UnauthorizedError "Account deactivated")).
Proof.
  intros p Hf Hu w' h o.
  assert (Ht : table p (store w') =
               update_row (id u) (consume_reset h) (table p (store w))).
  { unfold w'. rewrite (resetPassword_match env req w u Hf). cbn [snd store].
    apply set_table_same. }
  pose proof (login_after_update p (id u) _ w w' u pw
                (keeps_identity_consume h) Ht Hu eq_refl) as Hl.
  fold o in Hl.
  assert (Hcd : checks_deleted p = true).
  { unfold p, reset_model. destruct (_ =? _)%string; reflexivity. }
  rewrite Hcd in Hl. cbn [andb] in Hl.
  change (password (consume_reset h u)) with h in Hl.
  destruct (deleted u).
  - split; [| split]; [| discriminate | intros _; exact Hl].
    rewrite Hl. split; [intros (r & Hr); discriminate Hr |].
    intros [E _]; discriminate E.
  - split; [| split]; [| | discriminate].
    + rewrite Hl. destruct (bcrypt_compare pw h).
      * split; [auto | intros _; eexists; reflexivity].
      * split; [intros (r & Hr); discriminate Hr | intros [_ E]; discriminate E].
    + intros _ E. rewrite Hl, E. reflexivity.
Qed.

Lemma find_app_none {A : Type} (g : A -> bool) (t l : list A) :
  find g t = None -> find g (t ++ l) = find g l.
Proof.
  induction t as [| a t IH]; [reflexivity |]. cbn.
  destruct (g a); [discriminate | exact IH].
Qed.

(** X12.  After a successful registration the login of the registering
    partition with the registered email is decided by the row just created:
    when the body named [deleted] with a true value the account is stored
    soft-deleted and the login is refused with "Account deactivated";
    otherwise the login succeeds exactly for the passwords that verify
    against the stored hash of the registered password, and it then returns
    the id and the token id of the registration.  Every later registration
    of that email, as job seeker or as employer, ends in
    [BadRequestError]. *)
Theorem login_after_register (employer : bool) (env : Env)
        (req : RegisterBody) (w : World) (pw : string) :
  ~ email_taken (rg_email req) w ->
  let p := register_partition employer in
  let out := register_of employer env req w in
  let h := bcrypt_hash (rg_password req) (genSalt env) in
  let o := fst (login_of p (mkLoginReq (rg_email req) pw) (snd out)) in
  exists reg_user reg_tok,
    fst out = Sent (mkResponse 201 (RegisteredBody reg_user reg_tok)) /\
    p_deleted reg_user = registered_deleted req /\
    (rg_deleted req = Some true ->
     o = Next (UnauthorizedError "Account deactivated")) /\
    ((exists r, o = Sent r) <->
     registered_deleted req = false /\ bcrypt_compare pw h = true) /\
    (registered_deleted req = false -> bcrypt_compare pw h = false ->
     o = Next (UnauthorizedError "Invalid credentials")) /\
    (forall r, o = Sent r ->
               exists lbl user tok,
                 body r = LoginBody lbl user tok /\
                 p_id user = p_id reg_user /\ tk_id tok = tk_id reg_tok /\
                 tk_email tok = rg_email req) /\
    (forall employer' env' req',
       rg_email req' = rg_email req ->
       fst (register_of employer' env' req' (snd out)) =
         Next (BadRequestError "Email is already registered")).
Proof.
  intros Hn p out h o.
  pose proof (register_fresh employer env req w Hn) as Hr. cbv zeta in Hr.
  fold p h in Hr. fold (registered_deleted req) in Hr.
  match type of Hr with
  | context [QInsert _ ?r] => set (row := r) in *
  end.
  assert (Hu : by_email p (rg_email req) (snd out) = Some row).
  { unfold out. rewrite Hr. unfold by_email. cbn [snd store].
    rewrite set_table_same, find_app_none.
    - cbn. rewrite String.eqb_refl. reflexivity.
    - apply by_email_none. intros v Hv He. apply Hn. exists p, v. auto. }
  assert (Hcd : checks_deleted p = true) by (destruct employer; reflexivity).
  assert (Ho : o = if registered_deleted req
                   then Next (UnauthorizedError "Account deactivated")
                   else if bcrypt_compare pw h
                   then Sent (mkResponse 200
                                (LoginBody (login_label p row)
                                           (toJSON (instance_of row))
                                           (generateToken row (login_tag p))))
                   else Next (UnauthorizedError "Invalid credentials")).
  { unfold o. rewrite login_run. cbn [fst lg_email lg_password].
    rewrite Hu, Hcd. reflexivity. }
  do 2 eexists. split; [unfold out; rewrite Hr; reflexivity |].
  split; [reflexivity |].
  split; [| split; [| split; [| split]]].
  - intros Hd. rewrite Ho. unfold registered_deleted. rewrite Hd. reflexivity.
  - rewrite Ho. destruct (registered_deleted req).
    + split; [intros (r & E); discriminate E | intros [E _]; discriminate E].
    + destruct (bcrypt_compare pw h).
      * split; [auto | intros _; eexists; reflexivity].
      * split; [intros (r & E); discriminate E | intros [_ E]; discriminate E].
  - intros Hd E. rewrite Ho, Hd, E. reflexivity.
  - intros r. rewrite Ho. destruct (registered_deleted req); [discriminate |].
    destruct (bcrypt_compare pw h); [| discriminate].
    intros [= <-]. do 3 eexists. split; [reflexivity |].
    repeat split.
  - intros employer' env' req' He.
    assert (Ht : email_taken (rg_email req') (snd out)).
    { exists p, row. apply by_email_in in Hu. destruct Hu as [Hin Hem].
      split; [exact Hin |]. rewrite He. exact Hem. }
    rewrite (register_duplicate employer' env' req' (snd out) Ht).
    reflexivity.
Qed.

(** *** Reset tokens *)

(** X13.  The hexadecimal encoding loses nothing: two draws of random bytes
    give the same reset token only if they are the same bytes. *)
Theorem reset_token_injective (env1 env2 : Env) (n : nat) :
  toHex (randomBytes env1 n) = toHex (randomBytes env2 n) ->
  forall i, (i < n)%nat -> entropy env1 i = entropy env2 i.
Proof.
  intros H i Hi.
  assert (Hl : randomBytes env1 n = randomBytes env2 n).
  { pose proof (fromHex_toHex (randomBytes env1 n)) as H1.
    rewrite H, fromHex_toHex in H1. injection H1 as H1. symmetry. exact H1. }
  unfold randomBytes in Hl.
  assert (Hnth : nth_error (map (entropy env1) (seq 0 n)) i =
                 nth_error (map (entropy env2) (seq 0 n)) i)
    by (rewrite Hl; reflexivity).
  rewrite !nth_error_map in Hnth.
  assert (Hs : nth_error (seq 0 n) i = Some i).
  { rewrite nth_error_nth' with (d := 0%nat) by (rewrite length_seq; exact Hi).
    rewrite seq_nth by exact Hi. reflexivity. }
  rewrite Hs in Hnth. cbn in Hnth. injection Hnth as Hnth. exact Hnth.
Qed.

(** *** Unified login against the per-role logins *)

(** X14.  On an email the JobSeeker partition has, [unifiedLogin] is
    [loginJobSeeker]: the same outcome and the same effects, the other
    partitions not being read; so a soft-deleted or wrongly-passworded
    JobSeeker account makes it fail whatever the Employer and Admin
    partitions hold.  On an email only the Employer partition has among
    these two, it has the outcome of [loginEmployer]. *)
Theorem unifiedLogin_is_first_match_login (req : LoginReq) (w : World) :
  (is_some (by_email JobSeeker (lg_email req) w) = true ->
   unifiedLogin req w = loginJobSeeker req w) /\
  (by_email JobSeeker (lg_email req) w = None ->
   is_some (by_email Employer (lg_email req) w) = true ->
   fst (unifiedLogin req w) = fst (loginEmployer req w) /\
   store (snd (unifiedLogin req w)) = store w) /\
  (forall u e,
     by_email JobSeeker (lg_email req) w = Some u ->
     fst (loginJobSeeker req w) = Next e ->
     fst (unifiedLogin req w) = Next e).
Proof.
  assert (Hj : forall u, by_email JobSeeker (lg_email req) w = Some u ->
                         unifiedLogin req w = loginJobSeeker req w).
  { intros u Hu.
    assert (Hm : matched_partition (lg_email req) w = Some (JobSeeker, u))
      by (unfold matched_partition; rewrite Hu; reflexivity).
    destruct (unified_match req w JobSeeker u Hm) as [_ ->].
    change (loginJobSeeker req w) with (login_of JobSeeker req w).
    rewrite login_run, Hu. cbn [fst checks_deleted andb].
    destruct (deleted u); [reflexivity |].
    destruct (bcrypt_compare _ _); reflexivity. }
  split; [| split].
  - destruct (by_email JobSeeker (lg_email req) w) as [u |] eqn:Hu;
      [| discriminate]. intros _. exact (Hj u eq_refl).
  - intros Hn He.
    destruct (by_email Employer (lg_email req) w) as [u |] eqn:Hu;
      [| discriminate He].
    assert (Hm : matched_partition (lg_email req) w = Some (Employer, u))
      by (unfold matched_partition; rewrite Hn, Hu; reflexivity).
    destruct (unified_match req w Employer u Hm) as [_ ->].
    change (loginEmployer req w) with (login_of Employer req w).
    rewrite login_run, Hu. cbn [fst snd store checks_deleted andb].
    split; [| reflexivity].
    destruct (deleted u); [reflexivity |].
    destruct (bcrypt_compare _ _); reflexivity.
  - intros u e Hu He. rewrite (Hj u Hu). exact He.
Qed.

(** *** Issued credentials *)

(** X15.  An answered call carries a profile and a token exactly when it is
    a registration or a login.  The token then has the id and the email of
    the profile beside it, the profile has no password, the token's lifetime
    is [JWT_EXPIRATION] or "1d" when that is unset or empty, and the store
    the call leaves has an account with that id and that email. *)
Theorem issued_credentials (c : Call) (w : World) (r : Response) :
  fst (call c w) = Sent r ->
  is_some (credentials_of (body r)) = issues_token c /\
  forall user tok,
    credentials_of (body r) = Some (user, tok) ->
    tk_id tok = p_id user /\ tk_email tok = p_email user /\
    p_password user = None /\
    tk_expiresIn tok = or_default JWT_EXPIRATION "1d" /\
    exists p u, In u (table p (store (snd (call c w)))) /\
                id u = tk_id tok /\ email u = tk_email tok.
Proof.
  assert (Hlogin : forall p req,
            fst (login_of p req w) = Sent r ->
            is_some (credentials_of (body r)) = true /\
            forall user tok,
              credentials_of (body r) = Some (user, tok) ->
              tk_id tok = p_id user /\ tk_email tok = p_email user /\
              p_password user = None /\
              tk_expiresIn tok = or_default JWT_EXPIRATION "1d" /\
              exists q u, In u (table q (store (snd (login_of p req w)))) /\
                          id u = tk_id tok /\ email u = tk_email tok).
  { intros p req. rewrite login_run. cbn [fst snd store].
    destruct (by_email p (lg_email req) w) as [u |] eqn:Hu; [| discriminate].
    destruct (_ && _); [discriminate |].
    destruct (bcrypt_compare _ _); [| discriminate].
    intros [= <-]. split; [reflexivity |].
    intros user tok [= <- <-]. repeat (split; [reflexivity |]).
    exists p, u. apply by_email_in in Hu. repeat split. exact (proj1 Hu). }
  assert (Hreg : forall employer env req,
            fst (register_of employer env req w) = Sent r ->
            is_some (credentials_of (body r)) = true /\
            forall user tok,
              credentials_of (body r) = Some (user, tok) ->
              tk_id tok = p_id user /\ tk_email tok = p_email user /\
              p_password user = None /\
              tk_expiresIn tok = or_default JWT_EXPIRATION "1d" /\
              exists q u,
                In u (table q (store (snd (register_of employer env req w))))
                /\ id u = tk_id tok /\ email u = tk_email tok).
  { intros employer env req.
    destruct (email_taken_dec (rg_email req) w) as [Ht | Hn].
    { rewrite (register_duplicate employer env req w Ht). discriminate. }
    rewrite (register_fresh employer env req w Hn). cbn [fst snd store].
    intros [= <-]. split; [reflexivity |].
    intros user tok [= <- <-]. repeat (split; [reflexivity |]).
    do 2 eexists. rewrite set_table_same.
    split; [apply in_or_app; right; left; reflexivity |].
    split; reflexivity. }
  destruct c as [env req | env req | req | req | req | req | who
                 | env who req | env req | env req]; cbn [call issues_token].
  - apply (Hreg false).
  - apply (Hreg true).
  - apply (Hlogin JobSeeker).
  - apply (Hlogin Employer).
  - apply (Hlogin Admin).
  - destruct (matched_partition (lg_email req) w) as [[p u] |] eqn:Hm.
    2: { rewrite (unified_no_match req w Hm). discriminate. }
    destruct (unified_match req w p u Hm) as [Hu ->]. cbn [fst snd store].
    destruct (fst (login_of p req w)); [| discriminate].
    intros [= <-]. split; [reflexivity |].
    intros user tok [= <- <-]. repeat (split; [reflexivity |]).
    exists p, u. apply by_email_in in Hu. repeat split. exact (proj1 Hu).
  - rewrite getCurrentUser_run.
    destruct (partition_of_role (user_role who)); [| discriminate].
    cbn [fst]. destruct (by_pk _ _ _); [| discriminate].
    intros [= <-]. split; [reflexivity | discriminate].
  - rewrite changePassword_run.
    destruct (partition_of_role (user_role who)); [| discriminate].
    destruct (by_pk _ _ _); [| discriminate].
    destruct (bcrypt_compare _ _); [| discriminate].
    intros [= <-]. split; [reflexivity | discriminate].
  - destruct (by_email (reset_model (rr_role req)) (rr_email req) w)
      as [u |] eqn:Hf.
    + rewrite (requestPasswordReset_found env req w u Hf). cbn [fst].
      destruct (smtp_send env); [discriminate |].
      intros [= <-]. split; [reflexivity | discriminate].
    + rewrite (requestPasswordReset_not_found env req w Hf).
      intros [= <-]. split; [reflexivity | discriminate].
  - destruct (find (reset_matches (rs_token req) (now env))
                   (table (reset_model (rs_role req)) (store w)))
      as [u |] eqn:Hf.
    + rewrite (resetPassword_match env req w u Hf).
      intros [= <-]. split; [reflexivity | discriminate].
    + rewrite (resetPassword_no_match env req w Hf).
      intros [= <-]. split; [reflexivity | discriminate].
Qed.

End Controller.

(** ** Worked instances

    The theorems above, applied to the sample store with the stand-in for
    bcrypt. *)

Lemma append_length (s1 s2 : string) :
  String.length (s1 ++ s2) = (String.length s1 + String.length s2)%nat.
Proof.
  induction s1 as [| c s1 IH]; [reflexivity |].
  cbn [append String.length]. rewrite IH. reflexivity.
Qed.

Lemma toy_hash_not_identity (d s : string) : toy_hash d s <> d.
Proof.
  intros H. apply (f_equal String.length) in H. unfold toy_hash in H.
  rewrite !append_length in H. cbn [String.length] in H. lia.
Qed.

Lemma sample_not_taken : ~ email_taken "dave@x.com" sample_world.
Proof.
  intros H. apply email_taken_probe in H. vm_compute in H. discriminate H.
Qed.

Lemma sample_taken : email_taken "bob@x.com" sample_world.
Proof.
  exists JobSeeker, bob. split; [right; left; reflexivity | reflexivity].
Qed.

Lemma login_failure_messages_witness :
  fst (login_of toy_compare None JobSeeker
         (mkLoginReq "nobody@x.com" "pw1") sample_world) =
    Next (UnauthorizedError "Invalid credentials") /\
  fst (login_of toy_compare None JobSeeker
         (mkLoginReq "alice@x.com" "wrong") sample_world) =
    Next (UnauthorizedError "Invalid credentials") /\
  fst (login_of toy_compare None JobSeeker
         (mkLoginReq "bob@x.com" "pw2") sample_world) =
    Next (UnauthorizedError "Account deactivated") /\
  fst (login_of toy_compare None Admin
         (mkLoginReq "root@x.com" "wrong") sample_world) =
    Next (UnauthorizedError "Invalid credentials").
Proof.
  split; [| split; [| split]].
  - apply (login_failure_messages toy_compare None JobSeeker
             (mkLoginReq "nobody@x.com" "pw1") sample_world).
    reflexivity.
  - apply (proj1 (proj2 (login_failure_messages toy_compare None JobSeeker
                           (mkLoginReq "alice@x.com" "wrong") sample_world))
             alice);
      [reflexivity | right; reflexivity | reflexivity].
  - apply (proj1 (proj2 (proj2
             (login_failure_messages toy_compare None JobSeeker
                (mkLoginReq "bob@x.com" "pw2") sample_world))) bob);
      [reflexivity | discriminate | reflexivity].
  - apply (proj1 (proj2 (login_failure_messages toy_compare None Admin
                           (mkLoginReq "root@x.com" "wrong") sample_world))
             root);
      [reflexivity | left; reflexivity | reflexivity].
Defined.

(** C1 as the specification words it fails: for the soft-deleted job seeker
    of the sample store the login with the right password is refused with
    "Account deactivated", not with "Invalid credentials". *)
Lemma login_deactivated_counterexample :
  fst (loginJobSeeker toy_compare None (mkLoginReq "bob@x.com" "pw2")
         sample_world) = Next (UnauthorizedError "Account deactivated") /\
  ~ login_failures_are_generic (loginJobSeeker toy_compare None).
Proof.
  split; [reflexivity |].
  intros H.
  specialize (H (mkLoginReq "bob@x.com" "pw2") sample_world
                (UnauthorizedError "Account deactivated") eq_refl).
  discriminate H.
Qed.

Lemma unifiedLogin_priority_witness :
  fst (unifiedLogin toy_compare None toy_unicode_lower
         (mkLoginReq "root@x.com" "pw5") sample_world) =
    Sent (mkResponse 200
            (LoginBody (Some "SuperAdmin") (toJSON (instance_of root))
                       (generateToken None root "superadmin"))) /\
  fst (unifiedLogin toy_compare None toy_unicode_lower
         (mkLoginReq "ops@x.com" "pw6") staff_world) =
    Sent (mkResponse 200
            (LoginBody (Some "Admin") (toJSON (instance_of ops))
                       (generateToken None ops "admin"))) /\
  fst (unifiedLogin toy_compare None toy_unicode_lower
         (mkLoginReq "aux@x.com" "pw7") staff_world) =
    Sent (mkResponse 200
            (LoginBody (Some "Admin") (toJSON (instance_of aux))
                       (generateToken None aux "admin"))) /\
  fst (unifiedLogin toy_compare None toy_unicode_lower
         (mkLoginReq "bob@x.com" "pw2") sample_world) =
    Next (UnauthorizedError "Account deactivated") /\
  fst (unifiedLogin toy_compare None toy_unicode_lower
         (mkLoginReq "clinic@x.com" "bad") sample_world) =
    Next (UnauthorizedError "Invalid credentials").
Proof.
  split; [| split; [| split; [| split]]].
  - pose proof (unifiedLogin_priority toy_compare None toy_unicode_lower
                  (mkLoginReq "root@x.com" "pw5") sample_world) as H.
    change (matched_partition _ _) with (Some (Admin, root)) in H.
    cbv beta iota in H. destruct H as [(_ & _ & _ & _ & H & _) _].
    destruct (H (or_introl eq_refl) eq_refl) as (lbl & Hs & _ & _ & _ & Hl).
    assert (Hn : "SuperAdmin" <> "") by discriminate.
    rewrite (Hl eq_refl "SuperAdmin" eq_refl Hn) in Hs. exact Hs.
  - pose proof (unifiedLogin_priority toy_compare None toy_unicode_lower
                  (mkLoginReq "ops@x.com" "pw6") staff_world) as H.
    change (matched_partition _ _) with (Some (Admin, ops)) in H.
    cbv beta iota in H. destruct H as [(_ & _ & _ & _ & H & _) _].
    destruct (H (or_introl eq_refl) eq_refl) as (lbl & Hs & _ & _ & Hd & _).
    rewrite (Hd eq_refl (or_introl eq_refl)) in Hs. exact Hs.
  - pose proof (unifiedLogin_priority toy_compare None toy_unicode_lower
                  (mkLoginReq "aux@x.com" "pw7") staff_world) as H.
    change (matched_partition _ _) with (Some (Admin, aux)) in H.
    cbv beta iota in H. destruct H as [(_ & _ & _ & _ & H & _) _].
    destruct (H (or_introl eq_refl) eq_refl) as (lbl & Hs & _ & _ & Hd & _).
    rewrite (Hd eq_refl (or_intror eq_refl)) in Hs. exact Hs.
  - pose proof (unifiedLogin_priority toy_compare None toy_unicode_lower
                  (mkLoginReq "bob@x.com" "pw2") sample_world) as H.
    change (matched_partition _ _) with (Some (JobSeeker, bob)) in H.
    cbv beta iota in H. destruct H as [(_ & _ & H & _) _].
    apply H; [discriminate | reflexivity].
  - pose proof (unifiedLogin_priority toy_compare None toy_unicode_lower
                  (mkLoginReq "clinic@x.com" "bad") sample_world) as H.
    change (matched_partition _ _) with (Some (Employer, clinic)) in H.
    cbv beta iota in H. destruct H as [(_ & _ & _ & H & _) _].
    apply H; [right; reflexivity | reflexivity].
Defined.

Lemma register_rejects_taken_email_witness :
  fst (register_of toy_hash None true sample_env
         (mkRegisterBody "Clinic Two" "bob@x.com" "pw" None None None []) sample_world) =
    Next (BadRequestError "Email is already registered") /\
  store (snd (register_of toy_hash None true sample_env
                (mkRegisterBody "Clinic Two" "bob@x.com" "pw" None None None [])
                sample_world)) = sample_store.
Proof.
  destruct (proj1 (register_rejects_taken_email toy_hash None true sample_env
                     (mkRegisterBody "Clinic Two" "bob@x.com" "pw" None None None [])
                     sample_world) sample_taken) as (H1 & H2 & _).
  split; [exact H1 | exact H2].
Defined.

Lemma register_success_witness :
  exists row user token w',
    register_of toy_hash None false sample_env
      (mkRegisterBody "Dave" "dave@x.com" "pw9" None None None []) sample_world =
      (Sent (mkResponse 201 (RegisteredBody user token)), w') /\
    p_password user = None /\
    tk_role token = "jobSeeker" /\
    jobSeekers (store w') = [alice; bob; carol; row] /\
    password row = toy_hash "pw9" "s4lt" /\
    password row <> "pw9".
Proof.
  destruct (proj1 (register_success toy_hash None false sample_env
                     (mkRegisterBody "Dave" "dave@x.com" "pw9" None None None [])
                     sample_world) sample_not_taken)
    as (row & user & token & w' & Hr & _ & Hp & _ & _ & _ & _ & _ & _ & Ht & Htab
        & _ & _ & Hh & Hne).
  exists row, user, token, w'.
  split; [exact Hr |]. split; [exact Hp |]. split; [exact Ht |].
  split; [exact Htab |]. split; [exact Hh |].
  apply Hne. exact (fun d s => toy_hash_not_identity d s).
Defined.




Lemma requestPasswordReset_contract_witness :
  fst (requestPasswordReset sample_env
         (mkResetRequestBody "alice@x.com" "jobSeeker") sample_world) =
    Sent (mkResponse 200 (MessageBody true "Reset email sent!")) /\
  fst (requestPasswordReset failing_mail_env
         (mkResetRequestBody "alice@x.com" "jobSeeker") sample_world) =
    Next (OtherError "connect ECONNREFUSED") /\
  String.length (toHex (randomBytes sample_env 32)) = 64%nat.
Proof.
  pose proof (requestPasswordReset_contract sample_env
                (mkResetRequestBody "alice@x.com" "jobSeeker") sample_world
                alice eq_refl) as H.
  pose proof (requestPasswordReset_contract failing_mail_env
                (mkResetRequestBody "alice@x.com" "jobSeeker") sample_world
                alice eq_refl) as H'.
  cbv zeta in H, H'.
  destruct H as ((_ & Hlen & _) & _ & Hok & _).
  destruct H' as (_ & _ & _ & Hfail & _).
  split; [apply Hok; reflexivity |].
  split; [apply Hfail; reflexivity | exact Hlen].
Defined.

(** C6 as the specification words it fails: with a mailer that refuses the
    message, the request for the sample job seeker is not answered with 200;
    the mailer's error goes to the error middleware, after the token was
    stored. *)
Lemma reset_request_mail_failure_counterexample :
  fst (requestPasswordReset failing_mail_env
         (mkResetRequestBody "alice@x.com" "jobSeeker") sample_world) =
    Next (OtherError "connect ECONNREFUSED") /\
  by_email JobSeeker "alice@x.com"
    (snd (requestPasswordReset failing_mail_env
            (mkResetRequestBody "alice@x.com" "jobSeeker") sample_world)) =
    Some (issue_reset (toHex (randomBytes failing_mail_env 32)) 1000 alice) /\
  ~ reset_request_always_reports_success.
Proof.
  split; [reflexivity |]. split; [reflexivity |].
  intros H.
  destruct (H failing_mail_env (mkResetRequestBody "alice@x.com" "jobSeeker")
              sample_world alice eq_refl) as (b & Hb).
  discriminate Hb.
Qed.

Lemma getCurrentUser_contract_witness :
  exists prof,
    fst (getCurrentUser (mkIdentity 1 "admin") sample_world) =
      Sent (mkResponse 200 (UserBody prof)) /\
    p_password prof = None /\ p_email prof = "root@x.com".
Proof.
  pose proof (getCurrentUser_contract (mkIdentity 1 "admin") sample_world) as H.
  change (partition_of_role (user_role (mkIdentity 1 "admin")))
    with (Some Admin) in H.
  change (by_pk Admin _ _) with (Some root) in H.
  cbv beta iota in H.
  destruct H as (((prof & Hs & Hp & _ & _ & _ & He & _) & _) & _).
  exists prof. split; [exact Hs |]. split; [exact Hp | exact He].
Defined.

Lemma changePassword_frame_witness :
  fst (changePassword toy_hash toy_compare sample_env (mkIdentity 1 "employer")
         (mkChangeBody "pw4" "pw44") sample_world) =
    Sent (mkResponse 200 (MessageBody true "Password updated successfully")) /\
  jobSeekers (store (snd (changePassword toy_hash toy_compare sample_env
                            (mkIdentity 1 "employer")
                            (mkChangeBody "pw4" "pw44") sample_world))) =
    [alice; bob; carol] /\
  fst (changePassword toy_hash toy_compare sample_env (mkIdentity 1 "employer")
         (mkChangeBody "bad" "pw44") sample_world) =
    Next (UnauthorizedError "Current password is incorrect").
Proof.
  pose proof (changePassword_frame toy_hash toy_compare sample_env
                (mkIdentity 1 "employer") (mkChangeBody "pw4" "pw44")
                sample_world) as H.
  pose proof (changePassword_frame toy_hash toy_compare sample_env
                (mkIdentity 1 "employer") (mkChangeBody "bad" "pw44")
                sample_world) as H'.
  cbv zeta in H, H'.
  change (partition_of_role (user_role (mkIdentity 1 "employer")))
    with (Some Employer) in H, H'.
  cbv beta iota in H, H'.
  change (by_pk Employer (user_id (mkIdentity 1 "employer")) sample_world)
    with (Some clinic) in H, H'.
  cbv beta iota in H, H'.
  change (toy_compare (currentPassword (mkChangeBody "pw4" "pw44"))
            (password clinic)) with true in H.
  change (toy_compare (currentPassword (mkChangeBody "bad" "pw44"))
            (password clinic)) with false in H'.
  cbv beta iota in H, H'.
  destruct H as (Hs & _ & _ & Hq & _). destruct H' as (Hf & _).
  split; [exact Hs |]. split; [| exact Hf].
  apply (Hq JobSeeker). discriminate.
Defined.


Lemma reset_role_selects_partition_witness :
  requestPasswordReset sample_env (mkResetRequestBody "root@x.com" "admin")
    sample_world =
    (Sent (mkResponse 404 (MessageBody false "Email not found")),
     mkWorld sample_store [QFindOne JobSeeker]) /\
  fst (resetPassword toy_hash sample_env
         (mkResetBody "c0ffee" "admin" "fresh") sample_world) =
    Sent reset_ok /\
  jobSeekers (store (snd (resetPassword toy_hash sample_env
                            (mkResetBody "c0ffee" "admin" "fresh")
                            sample_world))) =
    [alice; bob; consume_reset (toy_hash "fresh" "s4lt") carol] /\
  fst (requestPasswordReset sample_env
         (mkResetRequestBody "alice@x.com" "anything") sample_world) =
    Sent (mkResponse 200 (MessageBody true "Reset email sent!")) /\
  fst (requestPasswordReset sample_env
         (mkResetRequestBody "clinic@x.com" "employer") sample_world) =
    Sent (mkResponse 200 (MessageBody true "Reset email sent!")).
Proof.
  destruct (reset_role_selects_partition toy_hash)
    as (Hq & Hs & Hqe & _).
  assert (Hadmin : "admin" <> "employer") by discriminate.
  assert (Hany : "anything" <> "employer") by discriminate.
  split; [| split; [| split; [| split]]].
  - pose proof (Hq sample_env (mkResetRequestBody "root@x.com" "admin")
                  sample_world Hadmin) as H.
    change (find _ (jobSeekers (store sample_world)))
      with (@None Account) in H.
    cbv beta iota in H. exact H.
  - pose proof (Hs sample_env (mkResetBody "c0ffee" "admin" "fresh")
                  sample_world Hadmin) as H.
    change (find _ (jobSeekers (store sample_world)))
      with (Some carol) in H.
    cbv beta iota in H. exact (f_equal fst H).
  - pose proof (Hs sample_env (mkResetBody "c0ffee" "admin" "fresh")
                  sample_world Hadmin) as H.
    change (find _ (jobSeekers (store sample_world)))
      with (Some carol) in H.
    cbv beta iota in H.
    exact (f_equal (fun o => jobSeekers (store (snd o))) H).
  - pose proof (Hq sample_env (mkResetRequestBody "alice@x.com" "anything")
                  sample_world Hany) as H.
    change (find _ (jobSeekers (store sample_world)))
      with (Some alice) in H.
    cbv beta iota in H. exact (f_equal fst H).
  - pose proof (Hqe sample_env (mkResetRequestBody "clinic@x.com" "employer")
                  sample_world eq_refl) as H.
    change (find _ (employers (store sample_world)))
      with (Some clinic) in H.
    cbv beta iota in H. exact (f_equal fst H).
Defined.

(** The end-to-end scenario of the specification, on an empty store:
    register, log in, fail to log in with a wrong password, request a reset,
    reset, then the old password is refused and the new one accepted. *)
Example end_to_end_scenario :
  let w0 := mkWorld (mkStore [] [] []) [] in
  let login pw := loginJobSeeker toy_compare None (mkLoginReq "a@x.com" pw) in
  let '(o1, w1) := registerJobSeeker toy_hash None sample_env
                     (mkRegisterBody "A" "a@x.com" "pw1" None None None []) w0 in
  let '(o2, w2) := login "pw1" w1 in
  let '(o3, w3) := login "wrong" w2 in
  let '(o4, w4) := requestPasswordReset sample_env
                     (mkResetRequestBody "a@x.com" "jobSeeker") w3 in
  let '(o5, w5) := resetPassword toy_hash sample_env
                     (mkResetBody (toHex (randomBytes sample_env 32))
                                  "jobSeeker" "pw2") w4 in
  let '(o6, w6) := login "pw1" w5 in
  let '(o7, _) := login "pw2" w6 in
  map status_of [o1; o2; o3; o4; o5; o6; o7] =
  [Some 201; Some 200; None; Some 200; Some 200; None; Some 200] /\
  o3 = Next (UnauthorizedError "Invalid credentials") /\
  o6 = Next (UnauthorizedError "Invalid credentials").
Proof. vm_compute. repeat split. Qed.

(** ** Worked instances of the further properties *)

Lemma sample_emails_unique : NoDup (all_emails sample_store).
Proof.
  cbn. repeat constructor; cbn; intros H;
    repeat (destruct H as [H | H]; [discriminate H |]); exact H.
Qed.

Lemma sample_token_fresh :
  forall r, In r (table JobSeeker (store sample_world)) -> id r <> id alice ->
            reset_token r <> Some (toHex (randomBytes sample_env 32)).
Proof.
  intros r [<- | [<- | [<- | []]]] Hid.
  - contradiction Hid. reflexivity.
  - discriminate.
  - intros E. vm_compute in E. discriminate E.
Qed.

Lemma sample_tokens_differ :
  toHex (randomBytes sample_env 32) <> toHex (randomBytes later_env 32).
Proof. intros E. vm_compute in E. discriminate E. Qed.

Lemma login_succeeds_iff_witness :
  exists r,
    fst (login_of toy_compare None JobSeeker (mkLoginReq "alice@x.com" "pw1")
           sample_world) = Sent r /\ status r = 200.
Proof.
  eexists. split.
  - apply (proj2 (login_succeeds_iff toy_compare None JobSeeker
                    (mkLoginReq "alice@x.com" "pw1") sample_world _)).
    exists alice. split; [reflexivity |]. split; [right; reflexivity |].
    split; reflexivity.
  - reflexivity.
Defined.

Lemma failed_call_writes_nothing_witness :
  store (snd (call toy_hash toy_compare None toy_unicode_lower
                (ChangePassword sample_env (mkIdentity 1 "employer")
                   (mkChangeBody "bad" "pw44")) sample_world)) = sample_store /\
  store (snd (call toy_hash toy_compare None toy_unicode_lower
                (RequestPasswordReset sample_env
                   (mkResetRequestBody "nobody@x.com" "jobSeeker"))
                sample_world)) = sample_store.
Proof.
  split.
  - apply (proj1 (failed_call_writes_nothing toy_hash toy_compare None
                    toy_unicode_lower
                    (ChangePassword sample_env (mkIdentity 1 "employer")
                       (mkChangeBody "bad" "pw44")) sample_world)
             (UnauthorizedError "Current password is incorrect")).
    + reflexivity.
    + reflexivity.
    + intros env req E. discriminate E.
  - apply (proj2 (failed_call_writes_nothing toy_hash toy_compare None
                    toy_unicode_lower
                    (RequestPasswordReset sample_env
                       (mkResetRequestBody "nobody@x.com" "jobSeeker"))
                    sample_world)
             (mkResponse 404 (MessageBody false "Email not found")));
      [reflexivity | discriminate | discriminate].
Defined.

Lemma call_writes_at_most_once_witness :
  store (snd (call toy_hash toy_compare None toy_unicode_lower
                (UnifiedLogin (mkLoginReq "clinic@x.com" "pw4"))
                sample_world)) = sample_store.
Proof.
  destruct (call_writes_at_most_once toy_hash toy_compare None toy_unicode_lower
              (UnifiedLogin (mkLoginReq "clinic@x.com" "pw4")) sample_world)
    as (evs & _ & _ & H0 & Hro).
  exact (H0 Hro).
Defined.

Lemma emails_stay_unique_witness :
  NoDup (all_emails
           (store (calls toy_hash toy_compare None toy_unicode_lower
                     [RegisterJobSeeker sample_env
                        (mkRegisterBody "Dave" "dave@x.com" "pw9" None None None []);
                      RegisterEmployer sample_env
                        (mkRegisterBody "Clinic" "dave@x.com" "pw9" None None None []);
                      ChangePassword sample_env (mkIdentity 1 "employer")
                        (mkChangeBody "pw4" "pw44")]
                     sample_world))).
Proof.
  apply emails_stay_unique. exact sample_emails_unique.
Defined.

Lemma issued_token_opens_profile_witness :
  exists r,
    fst (login_of toy_compare None Employer (mkLoginReq "clinic@x.com" "pw4")
           sample_world) = Sent r /\
    exists user tok prof,
      credentials_of (body r) = Some (user, tok) /\
      fst (getCurrentUser (identity_of tok)
             (snd (login_of toy_compare None Employer
                     (mkLoginReq "clinic@x.com" "pw4") sample_world))) =
        Sent (mkResponse 200 (UserBody prof)) /\
      p_id prof = p_id user.
Proof.
  eexists. split; [reflexivity |].
  assert (Hp : Employer <> JobSeeker) by discriminate.
  destruct (proj1 (issued_token_opens_profile toy_hash toy_compare None)
              Employer (mkLoginReq "clinic@x.com" "pw4") sample_world _ _
              Hp eq_refl)
    as (user & tok & prof & Hc & _ & Hg & Hid & _).
  exists user, tok, prof. split; [exact Hc |]. split; [exact Hg | exact Hid].
Defined.

Lemma unifiedLogin_token_dispatch_witness :
  exists tok,
    partition_of_role (tk_role tok) <> Some JobSeeker /\
    exists prof,
      fst (getCurrentUser (identity_of tok)
             (snd (unifiedLogin toy_compare None toy_unicode_lower
                     (mkLoginReq "clinic@x.com" "pw4") sample_world))) =
        Sent (mkResponse 200 (UserBody prof)) /\
      p_id prof = 1.
Proof.
  destruct (unifiedLogin_token_dispatch toy_compare None toy_unicode_lower
              (mkLoginReq "clinic@x.com" "pw4") sample_world _ _ eq_refl)
    as (p & u & lbl & user & tok & Hm & _ & _ & Hn & Hg).
  injection Hm as <- <-.
  exists tok. split; [exact Hn |].
  destruct (Hg (or_introl eq_refl)) as (prof & Hme & Hid & _).
  exists prof. split; [exact Hme | exact Hid].
Defined.

Lemma reset_request_then_reset_witness :
  fst (resetPassword toy_hash sample_env
         (mkResetBody (toHex (randomBytes sample_env 32)) "jobSeeker" "fresh")
         (snd (requestPasswordReset sample_env
                 (mkResetRequestBody "alice@x.com" "jobSeeker")
                 sample_world))) = Sent reset_ok /\
  fst (resetPassword toy_hash later_env
         (mkResetBody (toHex (randomBytes sample_env 32)) "jobSeeker" "fresh")
         (snd (requestPasswordReset sample_env
                 (mkResetRequestBody "alice@x.com" "jobSeeker")
                 sample_world))) = Sent reset_refused.
Proof.
  split.
  - apply (reset_request_then_reset toy_hash sample_env sample_env
             (mkResetRequestBody "alice@x.com" "jobSeeker") "fresh"
             sample_world alice eq_refl).
    reflexivity.
  - apply (reset_request_then_reset toy_hash sample_env later_env
             (mkResetRequestBody "alice@x.com" "jobSeeker") "fresh"
             sample_world alice eq_refl).
    + exact sample_token_fresh.
    + cbn. discriminate.
Defined.

Lemma second_reset_request_replaces_token_witness :
  fst (resetPassword toy_hash later_env
         (mkResetBody (toHex (randomBytes sample_env 32)) "jobSeeker" "fresh")
         (snd (requestPasswordReset later_env
                 (mkResetRequestBody "alice@x.com" "jobSeeker")
                 (snd (requestPasswordReset sample_env
                         (mkResetRequestBody "alice@x.com" "jobSeeker")
                         sample_world))))) = Sent reset_refused.
Proof.
  apply (second_reset_request_replaces_token toy_hash sample_env later_env
           later_env (mkResetRequestBody "alice@x.com" "jobSeeker") "fresh"
           sample_world alice eq_refl).
  - exact sample_tokens_differ.
  - exact sample_token_fresh.
Defined.

Lemma reset_request_unknown_email_witness :
  fst (requestPasswordReset sample_env
         (mkResetRequestBody "root@x.com" "admin") sample_world) =
  Sent (mkResponse 404 (MessageBody false "Email not found")).
Proof.
  apply (reset_request_unknown_email sample_env
           (mkResetRequestBody "root@x.com" "admin") sample_world);
    reflexivity.
Defined.

Lemma login_after_changePassword_witness :
  (exists r,
     fst (login_of toy_compare None Employer
            (mkLoginReq "clinic@x.com" "pw44")
            (snd (changePassword toy_hash toy_compare sample_env
                    (mkIdentity 1 "employer") (mkChangeBody "pw4" "pw44")
                    sample_world))) = Sent r) /\
  fst (login_of toy_compare None Employer (mkLoginReq "clinic@x.com" "pw4")
         (snd (changePassword toy_hash toy_compare sample_env
                 (mkIdentity 1 "employer") (mkChangeBody "pw4" "pw44")
                 sample_world))) =
    Next (UnauthorizedError "Invalid credentials").
Proof.
  split.
  - apply (login_after_changePassword toy_hash toy_compare None sample_env
             (mkIdentity 1 "employer") (mkChangeBody "pw4" "pw44")
             sample_world Employer clinic "pw44" eq_refl eq_refl eq_refl
             eq_refl).
    split; [right; reflexivity | reflexivity].
  - apply (login_after_changePassword toy_hash toy_compare None sample_env
             (mkIdentity 1 "employer") (mkChangeBody "pw4" "pw44")
             sample_world Employer clinic "pw4" eq_refl eq_refl eq_refl
             eq_refl).
    + right; reflexivity.
    + reflexivity.
Defined.

Lemma login_after_resetPassword_witness :
  exists r,
    fst (login_of toy_compare None JobSeeker
           (mkLoginReq "carol@x.com" "fresh")
           (snd (resetPassword toy_hash sample_env
                   (mkResetBody "c0ffee" "jobSeeker" "fresh")
                   sample_world))) = Sent r.
Proof.
  apply (login_after_resetPassword toy_hash toy_compare None sample_env
           (mkResetBody "c0ffee" "jobSeeker" "fresh") sample_world carol
           "fresh" eq_refl eq_refl).
  split; reflexivity.
Defined.

Lemma sample_eve_not_taken : ~ email_taken "eve@x.com" sample_world.
Proof.
  intros H. apply email_taken_probe in H. vm_compute in H. discriminate H.
Qed.

Lemma login_after_register_witness :
  (exists r,
     fst (login_of toy_compare None JobSeeker (mkLoginReq "dave@x.com" "pw9")
            (snd (register_of toy_hash None false sample_env
                    (mkRegisterBody "Dave" "dave@x.com" "pw9" None None None [])
                    sample_world))) = Sent r) /\
  fst (register_of toy_hash None true later_env
         (mkRegisterBody "Clinic" "dave@x.com" "other" None None None [])
         (snd (register_of toy_hash None false sample_env
                 (mkRegisterBody "Dave" "dave@x.com" "pw9" None None None [])
                 sample_world))) =
    Next (BadRequestError "Email is already registered") /\
  fst (login_of toy_compare None JobSeeker (mkLoginReq "eve@x.com" "pw8")
         (snd (register_of toy_hash None false sample_env body_deleted
                 sample_world))) =
    Next (UnauthorizedError "Account deactivated").
Proof.
  destruct (login_after_register toy_hash toy_compare None false sample_env
              (mkRegisterBody "Dave" "dave@x.com" "pw9" None None None [])
              sample_world "pw9" sample_not_taken)
    as (reg_user & reg_tok & _ & _ & _ & Hiff & _ & _ & Hdup).
  destruct (login_after_register toy_hash toy_compare None false sample_env
              body_deleted sample_world "pw8" sample_eve_not_taken)
    as (reg_user' & reg_tok' & _ & _ & Hdel & _).
  split; [| split].
  - apply Hiff. split; reflexivity.
  - apply (Hdup true later_env
             (mkRegisterBody "Clinic" "dave@x.com" "other" None None None [])).
    reflexivity.
  - apply Hdel. reflexivity.
Defined.

Lemma reset_token_injective_witness :
  entropy sample_env 7 = entropy failing_mail_env 7.
Proof.
  apply (reset_token_injective sample_env failing_mail_env 32);
    [reflexivity | repeat constructor].
Defined.

Lemma unifiedLogin_is_first_match_login_witness :
  unifiedLogin toy_compare None toy_unicode_lower (mkLoginReq "bob@x.com" "pw2") sample_world =
    loginJobSeeker toy_compare None (mkLoginReq "bob@x.com" "pw2")
      sample_world /\
  fst (unifiedLogin toy_compare None toy_unicode_lower (mkLoginReq "bob@x.com" "pw2")
         sample_world) = Next (UnauthorizedError "Account deactivated").
Proof.
  destruct (unifiedLogin_is_first_match_login toy_compare None toy_unicode_lower
              (mkLoginReq "bob@x.com" "pw2") sample_world)
    as (H1 & _ & H3).
  split; [apply H1; reflexivity |].
  apply (H3 bob); reflexivity.
Defined.

Lemma issued_credentials_witness :
  exists user tok,
    credentials_of
      (LoginBody (Some "SuperAdmin") (toJSON (instance_of root))
                 (generateToken None root "admin")) = Some (user, tok) /\
    tk_id tok = p_id user /\ tk_expiresIn tok = "1d".
Proof.
  destruct (issued_credentials toy_hash toy_compare None toy_unicode_lower
              (LoginAdmin (mkLoginReq "root@x.com" "pw5")) sample_world
              _ eq_refl) as (_ & H).
  do 2 eexists. split; [reflexivity |].
  destruct (H _ _ eq_refl) as (Hid & _ & _ & Hexp & _).
  split; [exact Hid | exact Hexp].
Defined.
